(** * bengali-captions: the transcription request handler

    A shallow embedding of [netlify/functions/transcribe.js]: the Netlify
    function [exports.handler] and its helper [translateToBengali].

    The handler is an orchestration of platform primitives
    ([process.env], [JSON.parse], [Buffer.from], [fetch],
    [encodeURIComponent], [Date.now]).  Those primitives are not code of the
    repository; they are gathered in the record [Platform] and every theorem
    quantifies over it.  What the handler does with their answers is
    translated line by line. *)

From Stdlib Require Import List NArith ZArith QArith Qround String Ascii Bool Lia.
From Stdlib Require Import DecimalString.
Import ListNotations.

Local Open Scope Z_scope.
Set Warnings "-register-all".

(* ------------------------------------------------------------------ *)
(** ** JavaScript strings *)

(** A JavaScript string is a sequence of UTF-16 code units. *)
Definition jstring := list N.

(** An ASCII literal of the source, as code units. *)
Definition lit (s : string) : jstring :=
  map N_of_ascii (list_ascii_of_string s).

Fixpoint jstring_eqb (a b : jstring) : bool :=
  match a, b with
  | [], [] => true
  | x :: a', y :: b' => N.eqb x y && jstring_eqb a' b'
  | _, _ => false
  end.

Fixpoint starts_with (pre s : jstring) : bool :=
  match pre, s with
  | [], _ => true
  | x :: pre', y :: s' => N.eqb x y && starts_with pre' s'
  | _ :: _, [] => false
  end.

(** [String.prototype.includes]. *)
Fixpoint includes (s sub : jstring) : bool :=
  starts_with sub s ||
  match s with
  | [] => false
  | _ :: s' => includes s' sub
  end.

(** WhiteSpace and LineTerminator code units, the ones [trim] strips. *)
Definition is_js_space (c : N) : bool :=
  (N.leb 9 c && N.leb c 13) || N.eqb c 32 || N.eqb c 160 || N.eqb c 5760
  || (N.leb 8192 c && N.leb c 8202) || N.eqb c 8232 || N.eqb c 8233
  || N.eqb c 8239 || N.eqb c 8287 || N.eqb c 12288 || N.eqb c 65279.

Fixpoint trim_start (s : jstring) : jstring :=
  match s with
  | c :: s' => if is_js_space c then trim_start s' else s
  | [] => []
  end.

(** [String.prototype.trim]. *)
Definition trim (s : jstring) : jstring :=
  rev (trim_start (rev (trim_start s))).

(** The character class of the regular expression: U+0980 to U+09FF. *)
Definition in_bengali_block (c : N) : bool :=
  N.leb 2432 c && N.leb c 2559.

(** Decimal digits of an integer, as a template literal prints it. *)
Definition Z_to_dec (z : Z) : jstring :=
  lit (NilEmpty.string_of_int (Z.to_int z)).

(* ------------------------------------------------------------------ *)
(** ** JavaScript values and exceptions *)

(** The values the handler meets: what [JSON.parse] produces, plus
    [undefined].  A finite number is the exact value of its double; a JSON
    literal too large for a double, such as 1e400, is read as an infinity.
    (No JSON text is read as NaN.)  The handler does no arithmetic on parsed
    numbers. *)
Inductive JsValue : Type :=
| JUndefined
| JNull
| JBool (b : bool)
| JNum (q : Q)
| JStr (s : jstring)
| JArr (elems : list JsValue)
| JObj (props : list (jstring * JsValue))
| JInfinity (negative : bool).

(** An [Error] object, as far as the handler reads it. *)
Record Exn : Type := Error { exn_name : jstring; exn_message : jstring }.

Inductive result (A : Type) : Type :=
| Ok (a : A)
| Throw (e : Exn).
Arguments Ok {A} a.
Arguments Throw {A} e.

Definition TypeError (msg : string) : Exn := Error (lit "TypeError") (lit msg).

(** ToBoolean. *)
Definition truthy (v : JsValue) : bool :=
  match v with
  | JUndefined | JNull => false
  | JBool b => b
  | JNum q => negb (Qeq_bool q 0)
  | JStr s => match s with [] => false | _ => true end
  | JArr _ | JObj _ | JInfinity _ => true
  end.

(** [a || b] on values. *)
Definition js_or (a b : JsValue) : JsValue := if truthy a then a else b.

Fixpoint lookup {V : Type} (k : jstring) (l : list (jstring * V)) : option V :=
  match l with
  | [] => None
  | (k', v) :: l' => if jstring_eqb k k' then Some v else lookup k l'
  end.

(** [v.name] for the property names the handler reads ([test], [text],
    [language], [duration]); none of them is inherited from a prototype. *)
Definition get_prop (v : JsValue) (name : string) : result JsValue :=
  match v with
  | JUndefined =>
      Throw (TypeError ("Cannot read properties of undefined (reading '" ++ name ++ "')"))
  | JNull =>
      Throw (TypeError ("Cannot read properties of null (reading '" ++ name ++ "')"))
  | JObj props =>
      match lookup (lit name) props with Some x => Ok x | None => Ok JUndefined end
  | _ => Ok JUndefined
  end.

(** [v[0]]: the first element of an array, the first code unit of a string,
    the property ["0"] of an object. *)
Definition get_index0 (v : JsValue) : result JsValue :=
  match v with
  | JUndefined => Throw (TypeError "Cannot read properties of undefined (reading '0')")
  | JNull => Throw (TypeError "Cannot read properties of null (reading '0')")
  | JStr (c :: _) => Ok (JStr [c])
  | JArr (x :: _) => Ok x
  | JObj props =>
      match lookup (lit "0") props with Some x => Ok x | None => Ok JUndefined end
  | _ => Ok JUndefined
  end.

(** Whether the printed form of [v] holds a Bengali code unit.  An array
    prints its elements joined by commas, so it matches when an element
    does; [null], [undefined], booleans, numbers and plain objects print in
    ASCII only. *)
Fixpoint regex_bengali_test (v : JsValue) : bool :=
  match v with
  | JStr s => existsb in_bengali_block s
  | JArr elems => existsb regex_bengali_test elems
  | _ => false
  end.

(** Whether [v] can be converted to a string.  A parsed object has no
    callable [toString] of its own: when it has an own property of that
    name, neither it nor [valueOf] yields a primitive and the conversion
    throws; an array prints when all its elements do. *)
Fixpoint printable (v : JsValue) : bool :=
  match v with
  | JObj props =>
      match lookup (lit "toString") props with Some _ => false | None => true end
  | JArr elems => forallb printable elems
  | _ => true
  end.

(** The regular expression's [test(v)]: the argument is converted to a
    string first. *)
Definition regex_test (v : JsValue) : result bool :=
  if printable v then Ok (regex_bengali_test v)
  else Throw (TypeError "Cannot convert object to primitive value").

(* ------------------------------------------------------------------ *)
(** ** Requests, responses and the platform *)

(** A Node [Buffer]: the handler reads its [length] and forwards the bytes. *)
Record Buffer : Type := mkBuffer { buf_length : N; buf_byte : N -> Byte.byte }.

(** The Netlify event: [event.body] is [null] or a string. *)
Record Event : Type := mkEvent {
  httpMethod : jstring;
  ev_headers : list (jstring * jstring);
  ev_body : option jstring
}.

Inductive FormPart : Type :=
| FormFile (name : jstring) (content : Buffer) (filename contentType : jstring)
| FormField (name value : jstring).

(** An outgoing [fetch] call. *)
Record Request : Type := mkRequest {
  req_url : jstring;
  req_method : jstring;
  req_authorization : option jstring;
  req_form : list FormPart
}.

(** A received HTTP response: a status and the raw body.  A connection that
    breaks before the body is complete counts as a rejected call. *)
Record HttpResponse : Type := mkHttp { status : Z; raw_body : jstring }.

(** [response.ok]. *)
Definition ok (r : HttpResponse) : bool :=
  Z.leb 200 (status r) && Z.ltb (status r) 300.

Record Platform : Type := mkPlatform {
  (** [process.env.OPENAI_API_KEY]: [undefined] or a string *)
  env_OPENAI_API_KEY : option jstring;
  (** [Date.now()]; every path of the handler reads the clock at most once *)
  Date_now : Z;
  JSON_parse : jstring -> result JsValue;
  (** the empty string is not a JSON text *)
  JSON_parse_empty : exists e, JSON_parse [] = Throw e;
  (** [Buffer.from(s, 'base64')] *)
  Buffer_from_base64 : jstring -> Buffer;
  encodeURIComponent : jstring -> result jstring;
  (** the awaited [fetch(...)]: a response, or a rejection (network failure,
      client-side timeout) *)
  fetch : Request -> result HttpResponse
}.

(** The body of the handler's response.  The source returns the string
    [JSON.stringify(o)]; the model keeps the properties that the string
    holds, in order, each with the value the string gives it. *)
Inductive Body : Type :=
| BodyText (s : jstring)
| BodyJSON (props : list (jstring * JsValue)).

Definition is_defined (p : jstring * JsValue) : bool :=
  match snd p with JUndefined => false | _ => true end.

(** The value [JSON.stringify] writes for [v]: an infinity is written as
    [null], at any depth; inside an array [undefined] is written as [null],
    inside an object a property that is [undefined] is left out. *)
Fixpoint jsonify (v : JsValue) : JsValue :=
  match v with
  | JInfinity _ => JNull
  | JArr elems =>
      JArr (map (fun x => match x with JUndefined => JNull | _ => jsonify x end) elems)
  | JObj props =>
      JObj ((fix members (l : list (jstring * JsValue)) : list (jstring * JsValue) :=
               match l with
               | [] => []
               | (k, x) :: l' =>
                   match x with
                   | JUndefined => members l'
                   | _ => (k, jsonify x) :: members l'
                   end
               end) props)
  | _ => v
  end.

(** [JSON.stringify] of an object literal: properties whose value is
    [undefined] are left out, the others are written by [jsonify]. *)
Definition JSON_stringify (props : list (string * JsValue)) : Body :=
  BodyJSON (map (fun p => (fst p, jsonify (snd p)))
              (filter is_defined (map (fun p => (lit (fst p), snd p)) props))).

Record Response : Type := mkResponse {
  statusCode : Z;
  headers : list (jstring * jstring);
  body : Body
}.

(** [response.body.name], when the body is a JSON object holding it. *)
Definition field (r : Response) (name : string) : option JsValue :=
  match body r with
  | BodyJSON props => lookup (lit name) props
  | BodyText _ => None
  end.

Definition header (r : Response) (name : string) : option jstring :=
  lookup (lit name) (headers r).

(* ------------------------------------------------------------------ *)
(** ** Effects: exceptions and the log of outgoing calls *)

(** The calls made so far, oldest first. *)
Definition Trace := list Request.

(** A computation may throw and may append to the log of [fetch] calls. *)
Definition M (A : Type) : Type := Trace -> result A * Trace.

Definition ret {A} (a : A) : M A := fun t => (Ok a, t).

Definition throw {A} (e : Exn) : M A := fun t => (Throw e, t).

Definition bind {A B} (m : M A) (k : A -> M B) : M B :=
  fun t =>
    match m t with
    | (Ok a, t') => k a t'
    | (Throw e, t') => (Throw e, t')
    end.

(** [try { m } catch (e) { h e }]. *)
Definition try_catch {A} (m : M A) (h : Exn -> M A) : M A :=
  fun t =>
    match m t with
    | (Ok a, t') => (Ok a, t')
    | (Throw e, t') => h e t'
    end.

Definition lift {A} (r : result A) : M A := fun t => (r, t).

Notation "x <- m ;; k" := (bind m (fun x => k))
  (at level 61, m at next level, right associativity).

(* ------------------------------------------------------------------ *)
(** ** The handler *)

Definition MAX_BYTES : N := 25 * 1024 * 1024.

(** [Math.round]: the nearest integer, ties towards plus infinity. *)
Definition Math_round (x : Q) : Z := Qfloor (x + (1 # 2)).

(** [body.length / (1024 * 1024)]; exact, the divisor being a power of two. *)
Definition megabytes (len : N) : Q := Z.of_N len # 1048576.

Definition cors_headers : list (jstring * jstring) :=
  [ (lit "Access-Control-Allow-Origin", lit "*");
    (lit "Access-Control-Allow-Headers", lit "Content-Type, Authorization");
    (lit "Access-Control-Allow-Methods", lit "POST, OPTIONS");
    (lit "Content-Type", lit "application/json") ].

Definition WHISPER_URL : jstring := lit "https://api.openai.com/v1/audio/transcriptions".

Definition TRANSLATE_URL : jstring :=
  lit "https://translate.googleapis.com/translate_a/single?client=gtx&sl=auto&tl=bn&dt=t&q=".

Definition whisper_request (key : jstring) (audio : Buffer) : Request :=
  {| req_url := WHISPER_URL;
     req_method := lit "POST";
     req_authorization := Some (lit "Bearer " ++ key);
     req_form :=
       [ FormFile (lit "file") audio (lit "audio.webm") (lit "audio/webm");
         FormField (lit "model") (lit "whisper-1");
         FormField (lit "language") (lit "bn");
         FormField (lit "response_format") (lit "json");
         FormField (lit "temperature") (lit "0") ] |}.

Definition translate_request (q : jstring) : Request :=
  {| req_url := TRANSLATE_URL ++ q;
     req_method := lit "GET";
     req_authorization := None;
     req_form := [] |}.

Definition is_translate_call (r : Request) : bool := starts_with TRANSLATE_URL (req_url r).

Section Handler.

Variable P : Platform.

(** [await fetch(...)]: the call is logged, then answered by the platform. *)
Definition await_fetch (req : Request) : M HttpResponse :=
  fun t => (fetch P req, t ++ [req]).

(** [response.text()] and [response.json()]. *)
Definition text (r : HttpResponse) : result jstring := Ok (raw_body r).

Definition json (r : HttpResponse) : result JsValue := JSON_parse P (raw_body r).

(** [a && b], [b] evaluated only when [a] is truthy. *)
Definition js_and (a : JsValue) (b : M JsValue) : M JsValue :=
  if truthy a then b else ret a.

(** [translateToBengali(text)], lines 204-232. *)
Definition translateToBengali (txt : jstring) : M JsValue :=
  try_catch
    (q <- lift (encodeURIComponent P txt) ;;
     response <- await_fetch (translate_request q) ;;
     if negb (ok response) then
       throw (Error (lit "Error") (lit "Translation API error: " ++ Z_to_dec (status response)))
     else
       data <- lift (json response) ;;
       shape <- js_and data
                  (d0 <- lift (get_index0 data) ;;
                   js_and d0
                     (d00 <- lift (get_index0 d0) ;;
                      js_and d00 (lift (get_index0 d00)))) ;;
       if truthy shape then
         d0 <- lift (get_index0 data) ;;
         d00 <- lift (get_index0 d0) ;;
         translatedText <- lift (get_index0 d00) ;;
         ret translatedText
       else ret JNull)
    (fun _ => ret JNull).

Definition options_response : Response :=
  {| statusCode := 200; headers := cors_headers; body := BodyText [] |}.

Definition method_not_allowed : Response :=
  {| statusCode := 405; headers := cors_headers;
     body := JSON_stringify [ ("error", JStr (lit "Method not allowed. Use POST.")) ]%string |}.

Definition key_missing : Response :=
  {| statusCode := 500; headers := cors_headers;
     body := JSON_stringify
       [ ("error", JStr (lit "OpenAI API key not configured"));
         ("setup", JStr (lit "Add OPENAI_API_KEY to Netlify environment variables"));
         ("help", JStr (lit "Go to Site Settings > Environment Variables in Netlify dashboard"))
       ]%string |}.

(** The probe answer; [apiKeyPresent] is [!!OPENAI_API_KEY]. *)
Definition probe_response (key : jstring) : Response :=
  {| statusCode := 200; headers := cors_headers;
     body := JSON_stringify
       [ ("success", JBool true);
         ("message", JStr (lit "API connected successfully"));
         ("timestamp", JNum (inject_Z (Date_now P)));
         ("apiKeyPresent", JBool (negb (negb (truthy (JStr key))))) ]%string |}.

Definition bad_content_type (contentType : option jstring) : Response :=
  {| statusCode := 400; headers := cors_headers;
     body := JSON_stringify
       [ ("error", JStr (lit "Content-Type must be multipart/form-data for audio uploads"));
         ("received", match contentType with
                      | Some (c :: s) => JStr (c :: s)
                      | _ => JStr (lit "none")
                      end) ]%string |}.

Definition too_large (audio : Buffer) : Response :=
  {| statusCode := 400; headers := cors_headers;
     body := JSON_stringify
       [ ("error", JStr (lit "Audio file too large. Maximum size is 25MB."));
         ("fileSize",
          JStr (Z_to_dec (Math_round (megabytes (buf_length audio))) ++ lit "MB")%list) ]%string |}.

Definition upstream_message (st : Z) : jstring :=
  if Z.eqb st 401 then lit "Invalid OpenAI API key. Please check your key."
  else if Z.eqb st 429 then lit "OpenAI API rate limit exceeded. Please try again later."
  else if Z.eqb st 413 then lit "Audio file too large for OpenAI API."
  else lit "OpenAI API request failed".

Definition upstream_error (st : Z) (errorText : jstring) : Response :=
  {| statusCode := st; headers := cors_headers;
     body := JSON_stringify
       [ ("error", JStr (upstream_message st));
         ("details", JStr errorText);
         ("status", JNum (inject_Z st)) ]%string |}.

Definition success_response (originalText bengaliText language duration : JsValue) : Response :=
  {| statusCode := 200; headers := cors_headers;
     body := JSON_stringify
       [ ("success", JBool true);
         ("original", originalText);
         ("bengali", bengaliText);
         ("language_detected", js_or language (JStr (lit "unknown")));
         ("confidence", JNum (95 # 100));
         ("timestamp", JNum (inject_Z (Date_now P)));
         ("model", JStr (lit "whisper-1"));
         ("duration", js_or duration JNull) ]%string |}.

Definition internal_error (e : Exn) : Response :=
  {| statusCode := 500; headers := cors_headers;
     body := JSON_stringify
       [ ("error", JStr (lit "Internal server error during transcription"));
         ("message", JStr (exn_message e));
         ("timestamp", JNum (inject_Z (Date_now P))) ]%string |}.

(** Lines 51-69: the probe block; [Some r] when it returns [r] from the
    handler, [None] when control falls through. *)
Definition probe_block (key : jstring) (event : Event) : M (option Response) :=
  match ev_body event with
  | Some (c :: s) =>
      try_catch
        (bodyData <- lift (JSON_parse P (c :: s)) ;;
         test <- lift (get_prop bodyData "test") ;;
         match test with
         | JBool true => ret (Some (probe_response key))
         | _ => ret None
         end)
        (fun _ => ret None)
  | _ => ret None
  end.

(** [event.headers['content-type'] || event.headers['Content-Type']]. *)
Definition content_type (event : Event) : option jstring :=
  match lookup (lit "content-type") (ev_headers event) with
  | Some (c :: s) => Some (c :: s)
  | _ => lookup (lit "Content-Type") (ev_headers event)
  end.

(** [!contentType || !contentType.includes('multipart/form-data')]. *)
Definition not_multipart (contentType : option jstring) : bool :=
  match contentType with
  | Some (c :: s) => negb (includes (c :: s) (lit "multipart/form-data"))
  | _ => true
  end.

(** [Buffer.from(event.body, 'base64')]; a [null] body is refused. *)
Definition decode_body (event : Event) : result Buffer :=
  match ev_body event with
  | Some s => Ok (Buffer_from_base64 P s)
  | None =>
      Throw (TypeError "The first argument must be of type string or an instance of Buffer, ArrayBuffer, or Array or an Array-like Object. Received null")
  end.

(** Lines 159-170: translate unless the text already holds a Bengali
    character or is blank; yields the final [bengaliText]. *)
Definition translate_step (bengaliText : JsValue) : M JsValue :=
  isBengali <- lift (regex_test bengaliText) ;;
  if negb isBengali then
    match bengaliText with
    | JStr s =>
        if truthy (JStr (trim s)) then
          try_catch
            (translatedText <- translateToBengali s ;;
             if truthy translatedText then ret translatedText else ret bengaliText)
            (fun _ => ret bengaliText)
        else ret bengaliText
    | _ => throw (TypeError "bengaliText.trim is not a function")
    end
  else ret bengaliText.

(** Lines 148-186: from the service's successful answer to the response. *)
Definition finish (openaiResponse : HttpResponse) : M Response :=
  transcriptionResult <- lift (json openaiResponse) ;;
  txt <- lift (get_prop transcriptionResult "text") ;;
  let bengaliText := js_or txt (JStr []) in
  let originalText := bengaliText in
  bengaliText' <- translate_step bengaliText ;;
  language <- lift (get_prop transcriptionResult "language") ;;
  duration <- lift (get_prop transcriptionResult "duration") ;;
  ret (success_response originalText bengaliText' language duration).

(** Lines 35-186: the body of the [try] block. *)
Definition pipeline (event : Event) : M Response :=
  match env_OPENAI_API_KEY P with
  | Some (k :: ey) =>
      let key := k :: ey in
      probed <- probe_block key event ;;
      match probed with
      | Some r => ret r
      | None =>
          let contentType := content_type event in
          if not_multipart contentType then ret (bad_content_type contentType)
          else
            audio <- lift (decode_body event) ;;
            if N.ltb MAX_BYTES (buf_length audio) then ret (too_large audio)
            else
              openaiResponse <- await_fetch (whisper_request key audio) ;;
              if negb (ok openaiResponse) then
                errorText <- lift (text openaiResponse) ;;
                ret (upstream_error (status openaiResponse) errorText)
              else finish openaiResponse
      end
  | _ => ret key_missing
  end.

(** [exports.handler]. *)
Definition handler (event : Event) : M Response :=
  if jstring_eqb (httpMethod event) (lit "OPTIONS") then ret options_response
  else if negb (jstring_eqb (httpMethod event) (lit "POST")) then ret method_not_allowed
  else try_catch (pipeline event) (fun error => ret (internal_error error)).

(** One invocation: the response (or an escaping exception) and the calls made. *)
Definition run (event : Event) : result Response * Trace := handler event [].

End Handler.

(* ------------------------------------------------------------------ *)
(** ** Vocabulary of the specification *)

(** The body is a connectivity probe: it parses as JSON and its property
    [test] is the boolean [true]. *)
Definition is_probe (P : Platform) (event : Event) : bool :=
  match ev_body event with
  | Some b =>
      match JSON_parse P b with
      | Ok bodyData =>
          match get_prop bodyData "test" with
          | Ok (JBool true) => true
          | _ => false
          end
      | Throw _ => false
      end
  | None => false
  end.

(** The request passes every validation step: a POST with a configured
    credential, not a probe, declared multipart, decoding to [audio] of at
    most 25 MiB. *)
Record validated (P : Platform) (event : Event) (key : jstring) (audio : Buffer) : Prop :=
  mkValidated {
    v_method : httpMethod event = lit "POST";
    v_key : env_OPENAI_API_KEY P = Some key;
    v_key_set : key <> [];
    v_not_probe : is_probe P event = false;
    v_multipart : not_multipart (content_type event) = false;
    v_audio : decode_body P event = Ok audio;
    v_size : (buf_length audio <= MAX_BYTES)%N
  }.

(** A successful transcription: the service answers the validated request
    with [openaiResponse], a success status and a JSON body
    [transcriptionResult]. *)
Record transcription_succeeds (P : Platform) (event : Event) (key : jstring)
    (audio : Buffer) (openaiResponse : HttpResponse) (transcriptionResult : JsValue)
  : Prop :=
  mkTranscribed {
    ts_valid : validated P event key audio;
    ts_fetch : fetch P (whisper_request key audio) = Ok openaiResponse;
    ts_ok : ok openaiResponse = true;
    ts_json : json P openaiResponse = Ok transcriptionResult
  }.

(** The translation step is attempted on [t]: no Bengali code unit, and
    something is left after trimming. *)
Definition translation_attempted (t : jstring) : Prop :=
  existsb in_bengali_block t = false /\ trim t <> [].

(** The response shape the translation helper expects: a nested array whose
    first element's first element's first element is a string. *)
Definition expected_shape (data : JsValue) (segment : jstring) : Prop :=
  exists r1 r2 r3, data = JArr (JArr (JArr (JStr segment :: r1) :: r2) :: r3).

(** The value of [data && data[0] && data[0][0] && data[0][0][0]]. *)
Definition first_segment (data : JsValue) : JsValue :=
  if truthy data then
    match get_index0 data with
    | Ok d0 =>
        if truthy d0 then
          match get_index0 d0 with
          | Ok d00 =>
              if truthy d00 then
                match get_index0 d00 with Ok d000 => d000 | Throw _ => JUndefined end
              else d00
          | Throw _ => JUndefined
          end
        else d0
    | Throw _ => JUndefined
    end
  else data.

(** The property names of a JSON body, in order. *)
Definition field_names (r : Response) : list jstring :=
  match body r with
  | BodyJSON props => map fst props
  | BodyText _ => []
  end.

(** Once [text] has been read, the result is an object-like value and its
    other properties read without throwing. *)
Definition reported (transcriptionResult : JsValue) (name : string) : JsValue :=
  match get_prop transcriptionResult name with
  | Ok v => v
  | Throw _ => JUndefined
  end.

Definition success_field_names : list jstring :=
  [ lit "success"; lit "original"; lit "bengali"; lit "language_detected";
    lit "confidence"; lit "timestamp"; lit "model"; lit "duration" ].

(** The ways the helper can fail that the code detects: the text cannot be
    encoded, the call is rejected (network failure, timeout raised by the
    client), the status is not a success, the body is not JSON, or the guard
    [data && data[0] && data[0][0] && data[0][0][0]] is falsy. *)
Inductive translation_fails (P : Platform) (txt : jstring) : Prop :=
| tf_encode e :
    encodeURIComponent P txt = Throw e -> translation_fails P txt
| tf_rejected q e :
    encodeURIComponent P txt = Ok q ->
    fetch P (translate_request q) = Throw e -> translation_fails P txt
| tf_status q response :
    encodeURIComponent P txt = Ok q ->
    fetch P (translate_request q) = Ok response ->
    ok response = false -> translation_fails P txt
| tf_not_json q response e :
    encodeURIComponent P txt = Ok q ->
    fetch P (translate_request q) = Ok response ->
    ok response = true ->
    json P response = Throw e -> translation_fails P txt
| tf_no_segment q response data :
    encodeURIComponent P txt = Ok q ->
    fetch P (translate_request q) = Ok response ->
    ok response = true ->
    json P response = Ok data ->
    truthy (first_segment data) = false -> translation_fails P txt.

(* ------------------------------------------------------------------ *)
(** ** A concrete platform, for examples

    [JSON.parse] is given by the finite table of the JSON texts an example
    uses, the services by the table of their answers. *)

Definition SyntaxError : Exn := Error (lit "SyntaxError") (lit "Unexpected token in JSON").

Definition table_parse (tbl : list (jstring * JsValue)) (s : jstring) : result JsValue :=
  match s with
  | [] => Throw SyntaxError
  | _ => match lookup s tbl with Some v => Ok v | None => Throw SyntaxError end
  end.

Definition FetchError : Exn := Error (lit "FetchError") (lit "network timeout").

Definition table_fetch (answers : list (jstring * HttpResponse)) (req : Request)
  : result HttpResponse :=
  match lookup (req_url req) answers with
  | Some r => Ok r
  | None => Throw FetchError
  end.

(** [Buffer.from(s, 'base64')] on a text made of the letter A only: every
    four letters stand for three zero bytes. *)
Definition decode_letters_A (s : jstring) : Buffer :=
  mkBuffer (N.of_nat (List.length s) * 3 / 4) (fun _ => Byte.x00).

(** A platform for uploads made of the letter A and for texts that
    [encodeURIComponent] leaves as they are. *)
Definition demo_platform (key : option jstring)
    (tbl : list (jstring * JsValue)) (answers : list (jstring * HttpResponse)) : Platform :=
  {| env_OPENAI_API_KEY := key;
     Date_now := 1700000000000;
     JSON_parse := table_parse tbl;
     JSON_parse_empty := ex_intro _ SyntaxError eq_refl;
     Buffer_from_base64 := decode_letters_A;
     encodeURIComponent := fun s => Ok s;
     fetch := table_fetch answers |}.

(** A JSON string literal of ASCII text. *)
Definition quoted (s : string) : jstring := [34%N] ++ lit s ++ [34%N].

(** The three zero bytes that the upload AAAA decodes to. *)
Definition small_audio : Buffer := mkBuffer 3 (fun _ => Byte.x00).

(** A multipart upload with body [b]. *)
Definition multipart_event (b : jstring) : Event :=
  {| httpMethod := lit "POST";
     ev_headers := [ (lit "content-type", lit "multipart/form-data; boundary=x") ];
     ev_body := Some b |}.

(** The transcription service cannot be reached. *)
Definition offline_platform : Platform :=
  demo_platform (Some (lit "sk-test")) [] [].

(** The probe body: an object whose property test is true. *)
Definition probe_text : jstring := lit "{" ++ quoted "test" ++ lit ": true}".

Definition probe_table : list (jstring * JsValue) :=
  [ (probe_text, JObj [ (lit "test", JBool true) ]) ].

Definition probe_event : Event :=
  {| httpMethod := lit "POST";
     ev_headers := [ (lit "content-type", lit "application/json") ];
     ev_body := Some probe_text |}.

Definition unconfigured_platform : Platform :=
  demo_platform None probe_table [].

Definition configured_platform : Platform :=
  demo_platform (Some (lit "sk-test")) probe_table [].

Definition rejected_key_platform : Platform :=
  demo_platform (Some (lit "sk-bad")) []
    [ (WHISPER_URL, mkHttp 401 (lit "Incorrect API key provided")) ].

(** A transcript in Latin script with a single Bengali letter (U+0995) in it. *)
Definition mixed_text : jstring := lit "Hello " ++ [0x995%N] ++ lit " world".

Definition mixed_json : jstring :=
  lit "{" ++ quoted "text" ++ lit ":" ++ [34%N] ++ mixed_text ++ [34%N] ++ lit "}".

Definition mixed_platform : Platform :=
  demo_platform (Some (lit "sk-test"))
    [ (mixed_json, JObj [ (lit "text", JStr mixed_text) ]) ]
    [ (WHISPER_URL, mkHttp 200 mixed_json) ].

(** The transcription answer: an object whose text is Hello. *)
Definition hello_json : jstring := lit "{" ++ quoted "text" ++ lit ":" ++ quoted "Hello" ++ lit "}".

Definition hello_result : JsValue := JObj [ (lit "text", JStr (lit "Hello")) ].

Definition hello_request : Request := translate_request (lit "Hello").

(** The transcription service answers [hello_json]; the translation service
    answers [answer], whose body parses to [data]. *)
Definition hello_platform (answer : HttpResponse) (data : JsValue) : Platform :=
  demo_platform (Some (lit "sk-test"))
    [ (hello_json, hello_result); (raw_body answer, data) ]
    [ (WHISPER_URL, mkHttp 200 hello_json); (req_url hello_request, answer) ].

(** Closed instances of [transcription_succeeds] are settled by evaluation. *)
Ltac transcribed_by_evaluation :=
  constructor; [constructor|..]; try reflexivity; discriminate.

(** A translation answer of the expected shape whose first segment is the
    empty string; the source text and the detected language follow. *)
Definition empty_segment_body : jstring :=
  lit "[[[" ++ [34%N; 34%N] ++ lit "," ++ quoted "Hello" ++ lit "]],null," ++ quoted "en"
    ++ lit "]".

Definition empty_segment_data : JsValue :=
  JArr [ JArr [ JArr [ JStr []; JStr (lit "Hello") ] ]; JNull; JStr (lit "en") ].

(** The translation service answers 200 with a JSON string, oops. *)
Definition string_body_platform : Platform :=
  hello_platform (mkHttp 200 (quoted "oops")) (JStr (lit "oops")).

(** The answer for a clip of 3.5 seconds: text U+0995, language bengali. *)
Definition verbose_json : jstring :=
  lit "{" ++ quoted "text" ++ lit ":" ++ [34%N; 0x995%N; 34%N] ++ lit ","
    ++ quoted "language" ++ lit ":" ++ quoted "bengali" ++ lit ","
    ++ quoted "duration" ++ lit ":3.5}".

Definition verbose_props : list (jstring * JsValue) :=
  [ (lit "text", JStr [0x995%N]);
    (lit "language", JStr (lit "bengali"));
    (lit "duration", JNum (7 # 2)) ].

Definition verbose_platform : Platform :=
  demo_platform (Some (lit "sk-test"))
    [ (verbose_json, JObj verbose_props) ]
    [ (WHISPER_URL, mkHttp 200 verbose_json) ].

(** The answer for an empty clip: empty text, language bengali, duration 0. *)
Definition silent_json : jstring :=
  lit "{" ++ quoted "text" ++ lit ":" ++ [34%N; 34%N] ++ lit ","
    ++ quoted "language" ++ lit ":" ++ quoted "bengali" ++ lit ","
    ++ quoted "duration" ++ lit ":0}".

Definition silent_props : list (jstring * JsValue) :=
  [ (lit "text", JStr []);
    (lit "language", JStr (lit "bengali"));
    (lit "duration", JNum 0) ].

Definition silent_platform : Platform :=
  demo_platform (Some (lit "sk-test"))
    [ (silent_json, JObj silent_props) ]
    [ (WHISPER_URL, mkHttp 200 silent_json) ].

(** The answer for an empty clip whose duration is written 1e400, a literal
    too large for a double. *)
Definition overflow_json : jstring :=
  lit "{" ++ quoted "text" ++ lit ":" ++ [34%N; 34%N] ++ lit ","
    ++ quoted "duration" ++ lit ":1e400}".

Definition overflow_props : list (jstring * JsValue) :=
  [ (lit "text", JStr []); (lit "duration", JInfinity false) ].

Definition overflow_platform : Platform :=
  demo_platform (Some (lit "sk-test"))
    [ (overflow_json, JObj overflow_props) ]
    [ (WHISPER_URL, mkHttp 200 overflow_json) ].

(** A 26 MiB upload: 36350635 letters A. *)
Definition big_body : jstring := repeat 65%N (N.to_nat 36350635).

Definition big_audio : Buffer := decode_letters_A big_body.

Definition big_platform (key : option jstring) : Platform := demo_platform key [] [].

(* ------------------------------------------------------------------ *)
(** ** Outcomes of an invocation, and further examples *)

(** The answers the handler builds, each with the outgoing calls that
    precede it. *)
Inductive outcome (P : Platform) : Response -> Trace -> Prop :=
| out_options : outcome P options_response []
| out_method : outcome P method_not_allowed []
| out_key : outcome P key_missing []
| out_probe key : outcome P (probe_response P key) []
| out_content_type contentType : outcome P (bad_content_type contentType) []
| out_decode e : outcome P (internal_error P e) []
| out_size audio : outcome P (too_large audio) []
| out_thrown key audio e :
    env_OPENAI_API_KEY P = Some key ->
    outcome P (internal_error P e) [whisper_request key audio]
| out_upstream key audio openaiResponse :
    env_OPENAI_API_KEY P = Some key ->
    fetch P (whisper_request key audio) = Ok openaiResponse ->
    ok openaiResponse = false ->
    outcome P (upstream_error (status openaiResponse) (raw_body openaiResponse))
      [whisper_request key audio]
| out_success key audio o b l d :
    env_OPENAI_API_KEY P = Some key ->
    o <> JUndefined -> b <> JUndefined ->
    outcome P (success_response P o b l d) [whisper_request key audio]
| out_translated key audio txt q o b l d :
    env_OPENAI_API_KEY P = Some key ->
    encodeURIComponent P txt = Ok q ->
    o <> JUndefined -> b <> JUndefined ->
    outcome P (success_response P o b l d)
      [whisper_request key audio; translate_request q].

(** A request of the given method, with no headers and no body. *)
Definition bare_event (method : string) : Event :=
  {| httpMethod := lit method; ev_headers := []; ev_body := None |}.

(** An upload AAAA sent with the given headers. *)
Definition upload_with_headers (hs : list (jstring * jstring)) : Event :=
  {| httpMethod := lit "POST"; ev_headers := hs; ev_body := Some (lit "AAAA") |}.

(** A multipart POST whose body is [null]. *)
Definition bodiless_event : Event :=
  {| httpMethod := lit "POST";
     ev_headers := [ (lit "content-type", lit "multipart/form-data; boundary=x") ];
     ev_body := None |}.

(** The transcription service answers 200 with [answer], which parses as
    [tbl] says. *)
Definition answering_platform (answer : jstring) (tbl : list (jstring * JsValue))
  : Platform :=
  demo_platform (Some (lit "sk-test")) tbl [ (WHISPER_URL, mkHttp 200 answer) ].

(** A transcript of three spaces. *)
Definition blank_json : jstring :=
  lit "{" ++ quoted "text" ++ lit ":" ++ quoted "   " ++ lit "}".

Definition blank_platform : Platform :=
  answering_platform blank_json [ (blank_json, JObj [ (lit "text", JStr (lit "   ")) ]) ].

(** An answer with no [text] at all. *)
Definition textless_platform : Platform :=
  answering_platform (lit "{}") [ (lit "{}", JObj []) ].

(** An answer whose [text] is the number 42. *)
Definition number_json : jstring := lit "{" ++ quoted "text" ++ lit ":42}".

Definition number_platform : Platform :=
  answering_platform number_json [ (number_json, JObj [ (lit "text", JNum 42) ]) ].

(** An answer that is not JSON, and the answer null. *)
Definition html_platform : Platform := answering_platform (lit "<html>") [].

Definition null_platform : Platform :=
  answering_platform (lit "null") [ (lit "null", JNull) ].

(** The Bengali rendering of Hello, and a translation answer holding it. *)
Definition halo : jstring := [0x9B9; 0x9CD; 0x9AF; 0x9BE; 0x9B2; 0x9CB]%N.

Definition halo_body : jstring :=
  lit "[[[" ++ [34%N] ++ halo ++ [34%N] ++ lit "," ++ quoted "Hello" ++ lit "]],null,"
    ++ quoted "en" ++ lit "]".

Definition halo_data : JsValue :=
  JArr [ JArr [ JArr [ JStr halo; JStr (lit "Hello") ] ]; JNull; JStr (lit "en") ].

Definition translating_platform : Platform :=
  hello_platform (mkHttp 200 halo_body) halo_data.

(** A JSON body whose [test] is the number 1, sent as JSON. *)
Definition loose_probe_text : jstring := lit "{" ++ quoted "test" ++ lit ": 1}".

Definition loose_probe_event : Event :=
  {| httpMethod := lit "POST";
     ev_headers := [ (lit "content-type", lit "application/json") ];
     ev_body := Some loose_probe_text |}.

Definition loose_probe_platform : Platform :=
  demo_platform (Some (lit "sk-test"))
    [ (loose_probe_text, JObj [ (lit "test", JNum 1) ]) ] [].

(** An upload one byte over 25 MiB: 34952535 letters A. *)
Definition near_body : jstring := repeat 65%N (N.to_nat 34952535).

Definition near_audio : Buffer := decode_letters_A near_body.

(* ------------------------------------------------------------------ *)
(** ** Properties *)

Lemma jstring_eqb_refl s : jstring_eqb s s = true.
Proof.
  induction s as [|c s IH]; simpl; [reflexivity|].
  now rewrite N.eqb_refl, IH.
Qed.

Lemma jstring_eqb_eq a b : jstring_eqb a b = true <-> a = b.
Proof.
  split; [|intros ->; apply jstring_eqb_refl].
  revert b; induction a as [|x a IH]; intros [|y b]; simpl; try discriminate; auto.
  intros H. apply andb_true_iff in H as [Hx Hab].
  apply N.eqb_eq in Hx. apply IH in Hab. now subst.
Qed.

(** The probe block neither throws nor calls out: it returns the probe
    answer exactly on a probe body. *)
Lemma probe_block_spec P key event t :
  probe_block P key event t
  = (Ok (if is_probe P event then Some (probe_response P key) else None), t).
Proof.
  unfold probe_block, is_probe.
  destruct (ev_body event) as [[|c s]|]; try reflexivity.
  - destruct (JSON_parse_empty P) as [e ->]. reflexivity.
  - unfold try_catch, bind, lift, ret.
    destruct (JSON_parse P (c :: s)) as [bodyData|e]; [|reflexivity].
    destruct (get_prop bodyData "test") as [[| |[|]| | | | |]|e]; reflexivity.
Qed.

(** Every invocation starts with the method checks. *)
Lemma run_post P event :
  httpMethod event = lit "POST" ->
  run P event = try_catch (pipeline P event) (fun e => ret (internal_error P e)) [].
Proof.
  intros H. unfold run, handler. rewrite H. reflexivity.
Qed.

(** A validated request reaches the call to the transcription service. *)
Lemma pipeline_validated P event key audio :
  validated P event key audio ->
  pipeline P event []
  = match fetch P (whisper_request key audio) with
    | Ok openaiResponse =>
        if ok openaiResponse then finish P openaiResponse [whisper_request key audio]
        else (Ok (upstream_error (status openaiResponse) (raw_body openaiResponse)),
              [whisper_request key audio])
    | Throw e => (Throw e, [whisper_request key audio])
    end.
Proof.
  intros [Hm Hk Hne Hp Hc Ha Hs].
  unfold pipeline. rewrite Hk.
  destruct key as [|k ey]; [congruence|].
  unfold bind at 1. rewrite probe_block_spec, Hp, Hc.
  unfold bind at 1, lift at 1. rewrite Ha.
  apply N.ltb_ge in Hs. rewrite Hs.
  unfold bind at 1, await_fetch. simpl app.
  destruct (fetch P (whisper_request (k :: ey) audio)) as [r|e]; [|reflexivity].
  destruct (ok r); reflexivity.
Qed.

Lemma get_prop_reported v name name' x :
  get_prop v name = Ok x -> get_prop v name' = Ok (reported v name').
Proof.
  unfold reported. destruct v; simpl; try discriminate; intros _; try reflexivity.
  destruct (lookup (lit name') props); reflexivity.
Qed.

Lemma finish_spec P openaiResponse transcriptionResult txt t :
  json P openaiResponse = Ok transcriptionResult ->
  get_prop transcriptionResult "text" = Ok txt ->
  finish P openaiResponse t
  = match translate_step P (js_or txt (JStr [])) t with
    | (Ok bengaliText, t') =>
        (Ok (success_response P (js_or txt (JStr [])) bengaliText
               (reported transcriptionResult "language")
               (reported transcriptionResult "duration")), t')
    | (Throw e, t') => (Throw e, t')
    end.
Proof.
  intros Hj Ht. unfold finish.
  unfold bind at 1, lift at 1. rewrite Hj.
  unfold bind at 1, lift at 1. rewrite Ht.
  unfold bind at 1.
  destruct (translate_step P (js_or txt (JStr [])) t) as [[b|e] t']; [|reflexivity].
  unfold bind, lift, ret.
  rewrite (get_prop_reported _ _ "language" _ Ht).
  rewrite (get_prop_reported _ _ "duration" _ Ht).
  reflexivity.
Qed.

(** Whatever the pipeline returns carries the CORS headers and a JSON body. *)
Lemma finish_shape P openaiResponse t r t' :
  finish P openaiResponse t = (Ok r, t') ->
  headers r = cors_headers /\ exists props, body r = BodyJSON props.
Proof.
  unfold finish, bind, lift, ret.
  destruct (json P openaiResponse) as [res|e]; [|discriminate].
  destruct (get_prop res "text") as [txt|e]; [|discriminate].
  destruct (translate_step P (js_or txt (JStr [])) t) as [[b|e] t'']; [|discriminate].
  destruct (get_prop res "language"); [|discriminate].
  destruct (get_prop res "duration"); [|discriminate].
  intros H. injection H as <- _. split; [reflexivity | eexists; reflexivity].
Qed.

Lemma pipeline_shape P event t r t' :
  pipeline P event t = (Ok r, t') ->
  headers r = cors_headers /\ exists props, body r = BodyJSON props.
Proof.
  unfold pipeline.
  destruct (env_OPENAI_API_KEY P) as [[|k ey]|];
    try (unfold ret; intros H; injection H as <- _;
         split; [reflexivity | eexists; reflexivity]).
  unfold bind at 1. rewrite probe_block_spec.
  destruct (is_probe P event).
  { unfold ret; intros H; injection H as <- _.
    split; [reflexivity | eexists; reflexivity]. }
  destruct (not_multipart (content_type event)).
  { unfold ret; intros H; injection H as <- _.
    split; [reflexivity | eexists; reflexivity]. }
  unfold bind at 1, lift at 1.
  destruct (decode_body P event) as [audio|e]; [|discriminate].
  destruct (N.ltb MAX_BYTES (buf_length audio)).
  { unfold ret; intros H; injection H as <- _.
    split; [reflexivity | eexists; reflexivity]. }
  unfold bind at 1, await_fetch.
  destruct (fetch P (whisper_request (k :: ey) audio)) as [resp|e]; [|discriminate].
  destruct (ok resp); cbv beta iota delta [negb].
  - apply finish_shape.
  - unfold bind, lift, text, ret. intros H; injection H as <- _.
    split; [reflexivity | eexists; reflexivity].
Qed.

(** The handler never lets an exception escape; but for the preflight answer
    its body is a JSON object. *)
Lemma handler_returns P event t :
  exists r t',
    handler P event t = (Ok r, t')
    /\ headers r = cors_headers
    /\ (httpMethod event <> lit "OPTIONS" -> exists props, body r = BodyJSON props).
Proof.
  unfold handler.
  destruct (jstring_eqb (httpMethod event) (lit "OPTIONS")) eqn:Eo.
  { apply jstring_eqb_eq in Eo. eexists _, _.
    split; [reflexivity|]. split; [reflexivity|]. congruence. }
  destruct (jstring_eqb (httpMethod event) (lit "POST"));
    cbv beta iota delta [negb].
  2:{ eexists _, _. split; [reflexivity|]. split; [reflexivity|].
      intros _. eexists; reflexivity. }
  unfold try_catch.
  destruct (pipeline P event t) as [[r|e] t'] eqn:E.
  - exists r, t'. split; [reflexivity|].
    destruct (pipeline_shape _ _ _ _ _ E) as [Hh Hb]. split; [exact Hh | intros _; exact Hb].
  - eexists _, _. split; [reflexivity|]. split; [reflexivity|].
    intros _. eexists; reflexivity.
Qed.

(** C9: every response, on every path, carries
    [Access-Control-Allow-Origin: *],
    [Access-Control-Allow-Methods: POST, OPTIONS],
    [Access-Control-Allow-Headers: Content-Type, Authorization] and
    [Content-Type: application/json]; and every invocation does end in a
    response. *)
Theorem every_response_carries_cors_headers (P : Platform) (event : Event) :
  exists r tr,
    run P event = (Ok r, tr)
    /\ header r "Access-Control-Allow-Origin" = Some (lit "*")
    /\ header r "Access-Control-Allow-Methods" = Some (lit "POST, OPTIONS")
    /\ header r "Access-Control-Allow-Headers" = Some (lit "Content-Type, Authorization")
    /\ header r "Content-Type" = Some (lit "application/json").
Proof.
  destruct (handler_returns P event []) as (r & tr & Hrun & Hh & _).
  exists r, tr. unfold header. rewrite Hh.
  repeat split; [exact Hrun|..]; reflexivity.
Qed.

(** C4: the handler never ends without a response, whose body (but for the
    empty preflight answer) is a JSON object; and an exception thrown
    anywhere in the pipeline (the [try] block) is answered with status 500
    and a JSON body holding [error], [message] (the exception's message) and
    [timestamp]; the calls made before the exception stay made. *)
Theorem pipeline_exception_becomes_500 (P : Platform) (event : Event) :
  (exists r tr,
     run P event = (Ok r, tr)
     /\ (httpMethod event <> lit "OPTIONS" -> exists props, body r = BodyJSON props))
  /\ (forall e tr,
        httpMethod event = lit "POST" ->
        pipeline P event [] = (Throw e, tr) ->
        exists r,
          run P event = (Ok r, tr)
          /\ statusCode r = 500
          /\ field_names r = [lit "error"; lit "message"; lit "timestamp"]
          /\ field r "error" = Some (JStr (lit "Internal server error during transcription"))
          /\ field r "message" = Some (JStr (exn_message e))
          /\ field r "timestamp" = Some (JNum (inject_Z (Date_now P)))).
Proof.
  split.
  - destruct (handler_returns P event []) as (r & tr & Hrun & _ & Hb).
    exists r, tr. split; assumption.
  - intros e tr Hm Hp. exists (internal_error P e).
    rewrite (run_post _ _ Hm). unfold try_catch. rewrite Hp.
    repeat split; reflexivity.
Qed.

Lemma pipeline_exception_becomes_500_witness :
  exists r,
    run offline_platform (multipart_event (lit "AAAA"))
    = (Ok r, [whisper_request (lit "sk-test") small_audio])
    /\ statusCode r = 500
    /\ field r "message" = Some (JStr (lit "network timeout")).
Proof.
  destruct (pipeline_exception_becomes_500 offline_platform (multipart_event (lit "AAAA")))
    as [_ H].
  destruct (H FetchError
              [whisper_request (lit "sk-test") small_audio]
              eq_refl eq_refl) as (r & Hrun & Hs & _ & _ & Hmsg & _).
  exists r. repeat split; assumption.
Defined.

(** C6: on a POST without the credential the handler answers 500 with
    [error], [setup] and [help], makes no outgoing call, and does so
    whatever the body is: a probe body gets the same 500. *)
Theorem missing_credential_is_reported_first (P : Platform) (event : Event) :
  httpMethod event = lit "POST" ->
  env_OPENAI_API_KEY P = None \/ env_OPENAI_API_KEY P = Some [] ->
  exists r,
    run P event = (Ok r, [])
    /\ statusCode r = 500
    /\ field_names r = [lit "error"; lit "setup"; lit "help"]
    /\ field r "error" = Some (JStr (lit "OpenAI API key not configured"))
    /\ field r "setup" = Some (JStr (lit "Add OPENAI_API_KEY to Netlify environment variables"))
    /\ field r "help"
       = Some (JStr (lit "Go to Site Settings > Environment Variables in Netlify dashboard"))
    /\ (forall b, run P (mkEvent (httpMethod event) (ev_headers event) b) = (Ok r, [])).
Proof.
  intros Hm Hk. exists key_missing.
  assert (Hrun : forall ev, httpMethod ev = lit "POST" -> run P ev = (Ok key_missing, [])).
  { intros ev Hev. rewrite (run_post _ _ Hev). unfold try_catch, pipeline.
    destruct Hk as [-> | ->]; reflexivity. }
  split; [apply Hrun, Hm|].
  repeat split; try reflexivity.
  intros b. apply Hrun. exact Hm.
Qed.

Lemma missing_credential_is_reported_first_witness :
  is_probe unconfigured_platform probe_event = true
  /\ exists r, run unconfigured_platform probe_event = (Ok r, []) /\ statusCode r = 500.
Proof.
  split; [reflexivity|].
  destruct (missing_credential_is_reported_first unconfigured_platform probe_event
              eq_refl (or_introl eq_refl)) as (r & Hrun & Hs & _).
  exists r. split; assumption.
Defined.

(** C7: a POST with a configured credential whose body parses as JSON with
    [test === true] is answered 200 with [success: true],
    [apiKeyPresent: true], a message and a timestamp; no outgoing call is
    made, and neither the headers nor the decoded size play any part. *)
Theorem probe_short_circuits (P : Platform) (event : Event)
    (key b : jstring) (props : list (jstring * JsValue)) :
  httpMethod event = lit "POST" ->
  env_OPENAI_API_KEY P = Some key ->
  key <> [] ->
  ev_body event = Some b ->
  JSON_parse P b = Ok (JObj props) ->
  lookup (lit "test") props = Some (JBool true) ->
  exists r,
    run P event = (Ok r, [])
    /\ statusCode r = 200
    /\ field_names r = [lit "success"; lit "message"; lit "timestamp"; lit "apiKeyPresent"]
    /\ field r "success" = Some (JBool true)
    /\ field r "apiKeyPresent" = Some (JBool true)
    /\ field r "message" = Some (JStr (lit "API connected successfully"))
    /\ field r "timestamp" = Some (JNum (inject_Z (Date_now P)))
    /\ (forall hs, run P (mkEvent (httpMethod event) hs (ev_body event)) = (Ok r, [])).
Proof.
  intros Hm Hk Hne Hb Hj Ht.
  destruct key as [|k ey]; [congruence|].
  exists (probe_response P (k :: ey)).
  assert (Hrun : forall ev, httpMethod ev = lit "POST" -> ev_body ev = Some b ->
                            run P ev = (Ok (probe_response P (k :: ey)), [])).
  { intros ev Hev Hbody. rewrite (run_post _ _ Hev). unfold try_catch, pipeline.
    rewrite Hk. unfold bind. rewrite probe_block_spec.
    unfold is_probe. rewrite Hbody, Hj. unfold get_prop. rewrite Ht. reflexivity. }
  split; [apply Hrun; assumption|].
  repeat split; try reflexivity.
  intros hs. apply Hrun; [exact Hm | exact Hb].
Qed.

Lemma probe_short_circuits_witness :
  exists r,
    run configured_platform probe_event = (Ok r, [])
    /\ statusCode r = 200
    /\ field r "apiKeyPresent" = Some (JBool true).
Proof.
  destruct (probe_short_circuits configured_platform probe_event (lit "sk-test")
              probe_text [ (lit "test", JBool true) ]
              eq_refl eq_refl ltac:(discriminate) eq_refl eq_refl eq_refl)
    as (r & Hrun & Hs & _ & _ & Hk & _).
  exists r. repeat split; assumption.
Defined.

(** C3: when the transcription service answers with a non-success status,
    the handler answers with that same status; [error] is chosen by the
    status (401, 429, 413, anything else), [details] is the raw upstream
    body and [status] the upstream status. *)
Theorem upstream_failure_is_propagated (P : Platform) (event : Event)
    (key : jstring) (audio : Buffer) (openaiResponse : HttpResponse) :
  validated P event key audio ->
  fetch P (whisper_request key audio) = Ok openaiResponse ->
  ok openaiResponse = false ->
  exists r,
    run P event = (Ok r, [whisper_request key audio])
    /\ statusCode r = status openaiResponse
    /\ field_names r = [lit "error"; lit "details"; lit "status"]
    /\ field r "details" = Some (JStr (raw_body openaiResponse))
    /\ field r "status" = Some (JNum (inject_Z (status openaiResponse)))
    /\ (status openaiResponse = 401 ->
        field r "error" = Some (JStr (lit "Invalid OpenAI API key. Please check your key.")))
    /\ (status openaiResponse = 429 ->
        field r "error"
        = Some (JStr (lit "OpenAI API rate limit exceeded. Please try again later.")))
    /\ (status openaiResponse = 413 ->
        field r "error" = Some (JStr (lit "Audio file too large for OpenAI API.")))
    /\ (status openaiResponse <> 401 -> status openaiResponse <> 429 ->
        status openaiResponse <> 413 ->
        field r "error" = Some (JStr (lit "OpenAI API request failed"))).
Proof.
  intros Hv Hf Hok.
  exists (upstream_error (status openaiResponse) (raw_body openaiResponse)).
  split.
  { rewrite (run_post _ _ (v_method _ _ _ _ Hv)). unfold try_catch.
    rewrite (pipeline_validated _ _ _ _ Hv), Hf, Hok. reflexivity. }
  repeat split; try reflexivity.
  - intros ->. reflexivity.
  - intros ->. reflexivity.
  - intros ->. reflexivity.
  - intros H1 H2 H3. unfold field, upstream_error, upstream_message. simpl.
    apply Z.eqb_neq in H1, H2, H3. rewrite H1, H2, H3. reflexivity.
Qed.

Lemma upstream_failure_is_propagated_witness :
  exists r tr,
    run rejected_key_platform (multipart_event (lit "AAAA")) = (Ok r, tr)
    /\ statusCode r = 401
    /\ field r "error" = Some (JStr (lit "Invalid OpenAI API key. Please check your key."))
    /\ field r "details" = Some (JStr (lit "Incorrect API key provided")).
Proof.
  assert (Hv : validated rejected_key_platform (multipart_event (lit "AAAA"))
                 (lit "sk-bad") small_audio).
  { constructor; try reflexivity; discriminate. }
  destruct (upstream_failure_is_propagated rejected_key_platform _ _ _
              (mkHttp 401 (lit "Incorrect API key provided")) Hv eq_refl eq_refl)
    as (r & Hrun & Hs & _ & Hd & _ & H401 & _).
  exists r, [whisper_request (lit "sk-bad") small_audio].
  repeat split; [exact Hrun | exact Hs | exact (H401 eq_refl) | exact Hd].
Defined.

(* ------------------------------------------------------------------ *)
(** ** The translation helper *)

Lemma truthy_get_index0 v : truthy v = true -> exists x, get_index0 v = Ok x.
Proof.
  destruct v as [| | b | q | [|c s] | [|x l] | props | neg]; simpl; try discriminate; eauto.
  destruct (lookup (lit "0") props); eauto.
Qed.

(** The guard of line 219 evaluates, without throwing, to [first_segment]. *)
Lemma shape_guard data t :
  js_and data
    (d0 <- lift (get_index0 data) ;;
     js_and d0
       (d00 <- lift (get_index0 d0) ;;
        js_and d00 (lift (get_index0 d00)))) t
  = (Ok (first_segment data), t).
Proof.
  unfold js_and, first_segment.
  destruct (truthy data) eqn:E1; [|reflexivity].
  destruct (truthy_get_index0 _ E1) as [d0 H0]. unfold bind at 1, lift at 1. rewrite H0.
  destruct (truthy d0) eqn:E2; [|reflexivity].
  destruct (truthy_get_index0 _ E2) as [d00 H00]. unfold bind at 1, lift at 1. rewrite H00.
  destruct (truthy d00) eqn:E3; [|reflexivity].
  destruct (truthy_get_index0 _ E3) as [d000 H000]. unfold lift. rewrite H000. reflexivity.
Qed.

(** When the guard holds, [data[0][0][0]] reads back the same value. *)
Lemma first_segment_reread data :
  truthy (first_segment data) = true ->
  exists d0 d00,
    get_index0 data = Ok d0 /\ get_index0 d0 = Ok d00
    /\ get_index0 d00 = Ok (first_segment data).
Proof.
  unfold first_segment.
  destruct (truthy data) eqn:E1; [|congruence].
  destruct (truthy_get_index0 _ E1) as [d0 H0]. rewrite H0.
  destruct (truthy d0) eqn:E2; [|congruence].
  destruct (truthy_get_index0 _ E2) as [d00 H00]. rewrite H00.
  destruct (truthy d00) eqn:E3; [|congruence].
  destruct (truthy_get_index0 _ E3) as [d000 H000]. rewrite H000.
  intros _. exists d0, d00. auto.
Qed.

(** What the helper returns and which call it makes: it never throws, and
    it answers [null] unless the guard finds a truthy first segment. *)
Lemma translateToBengali_spec P txt t :
  translateToBengali P txt t
  = match encodeURIComponent P txt with
    | Throw _ => (Ok JNull, t)
    | Ok q =>
        (match fetch P (translate_request q) with
         | Throw _ => Ok JNull
         | Ok response =>
             if ok response then
               match json P response with
               | Throw _ => Ok JNull
               | Ok data =>
                   if truthy (first_segment data) then Ok (first_segment data)
                   else Ok JNull
               end
             else Ok JNull
         end, t ++ [translate_request q])
    end.
Proof.
  unfold translateToBengali, try_catch.
  unfold bind at 1, lift at 1.
  destruct (encodeURIComponent P txt) as [q|e]; [|reflexivity].
  unfold bind at 1, await_fetch.
  destruct (fetch P (translate_request q)) as [response|e]; [|reflexivity].
  destruct (ok response); cbv beta iota delta [negb]; [|reflexivity].
  unfold bind at 1, lift at 1.
  destruct (json P response) as [data|e]; [|reflexivity].
  unfold bind at 1. rewrite shape_guard.
  destruct (truthy (first_segment data)) eqn:E; [|reflexivity].
  destruct (first_segment_reread _ E) as (d0 & d00 & H0 & H00 & H000).
  unfold bind, lift, ret. rewrite H0, H00, H000. reflexivity.
Qed.

(** On a string the conversion of the regular expression's argument cannot
    throw. *)
Lemma translate_step_string P s t :
  translate_step P (JStr s) t
  = (if negb (existsb in_bengali_block s) then
       if truthy (JStr (trim s)) then
         try_catch
           (translatedText <- translateToBengali P s ;;
            if truthy translatedText then ret translatedText else ret (JStr s))
           (fun _ => ret (JStr s))
       else ret (JStr s)
     else ret (JStr s)) t.
Proof. reflexivity. Qed.

(** The translation step on a text it is attempted on. *)
Lemma translate_step_attempted P s t :
  translation_attempted s ->
  translate_step P (JStr s) t
  = match translateToBengali P s t with
    | (Ok translatedText, t') =>
        (Ok (if truthy translatedText then translatedText else JStr s), t')
    | (Throw _, t') => (Ok (JStr s), t')
    end.
Proof.
  intros [Hb Ht]. rewrite translate_step_string, Hb.
  cbv beta iota delta [negb].
  assert (E : truthy (JStr (trim s)) = true).
  { simpl. destruct (trim s); [congruence | reflexivity]. }
  rewrite E. unfold try_catch, bind.
  destruct (translateToBengali P s t) as [[v|e] t']; [|reflexivity].
  destruct (truthy v); reflexivity.
Qed.

(** The translation step is skipped on a text holding a Bengali code unit. *)
Lemma translate_step_bengali P s t :
  existsb in_bengali_block s = true -> translate_step P (JStr s) t = (Ok (JStr s), t).
Proof.
  intros H. rewrite translate_step_string, H. reflexivity.
Qed.

(** A successful transcription with a string [text] goes on to the
    translation step and always ends in the success response. *)
Lemma run_transcribed P event key audio openaiResponse transcriptionResult s :
  transcription_succeeds P event key audio openaiResponse transcriptionResult ->
  get_prop transcriptionResult "text" = Ok (JStr s) ->
  s <> [] ->
  run P event
  = match translate_step P (JStr s) [whisper_request key audio] with
    | (Ok bengaliText, tr) =>
        (Ok (success_response P (JStr s) bengaliText
               (reported transcriptionResult "language")
               (reported transcriptionResult "duration")), tr)
    | (Throw e, tr) => (Ok (internal_error P e), tr)
    end.
Proof.
  intros [Hv Hf Hok Hj] Ht Hs.
  rewrite (run_post _ _ (v_method _ _ _ _ Hv)). unfold try_catch.
  rewrite (pipeline_validated _ _ _ _ Hv), Hf, Hok.
  rewrite (finish_spec _ _ _ _ _ Hj Ht).
  assert (E : js_or (JStr s) (JStr []) = JStr s).
  { destruct s; [congruence | reflexivity]. }
  rewrite E.
  destruct (translate_step P (JStr s) [whisper_request key audio]) as [[b|e] tr];
    reflexivity.
Qed.

(* ------------------------------------------------------------------ *)
(** ** The success response *)

Lemma is_defined_js_or k a b : b <> JUndefined -> is_defined (k, js_or a b) = true.
Proof.
  intros Hb. unfold js_or, is_defined.
  destruct (truthy a) eqn:E; simpl.
  - destruct a; try reflexivity. discriminate.
  - destruct b; try reflexivity. congruence.
Qed.

Lemma is_defined_iff k v : v <> JUndefined -> is_defined (k, v) = true.
Proof. intros H. destruct v; try reflexivity. congruence. Qed.

(** The success body holds its eight properties, none left out. *)
Lemma success_body P o b l d :
  o <> JUndefined -> b <> JUndefined ->
  body (success_response P o b l d)
  = BodyJSON
      [ (lit "success", JBool true);
        (lit "original", jsonify o);
        (lit "bengali", jsonify b);
        (lit "language_detected", jsonify (js_or l (JStr (lit "unknown"))));
        (lit "confidence", JNum (95 # 100));
        (lit "timestamp", JNum (inject_Z (Date_now P)));
        (lit "model", JStr (lit "whisper-1"));
        (lit "duration", jsonify (js_or d JNull)) ].
Proof.
  intros Ho Hb. unfold success_response, JSON_stringify; simpl body.
  f_equal. cbn [map fst snd]. unfold filter.
  rewrite (is_defined_iff _ o Ho), (is_defined_iff _ b Hb).
  rewrite !is_defined_js_or by discriminate.
  reflexivity.
Qed.

Lemma success_fields P o b l d :
  o <> JUndefined -> b <> JUndefined ->
  let r := success_response P o b l d in
  statusCode r = 200
  /\ field_names r = success_field_names
  /\ field r "original" = Some (jsonify o)
  /\ field r "bengali" = Some (jsonify b)
  /\ field r "language_detected" = Some (jsonify (js_or l (JStr (lit "unknown"))))
  /\ field r "duration" = Some (jsonify (js_or d JNull))
  /\ field r "error" = None.
Proof.
  intros Ho Hb r. unfold field, field_names. subst r.
  rewrite (success_body P o b l d Ho Hb).
  repeat split; reflexivity.
Qed.

Lemma in_bengali_block_iff c : in_bengali_block c = true <-> (0x980 <= c <= 0x9FF)%N.
Proof.
  unfold in_bengali_block. rewrite andb_true_iff, !N.leb_le. reflexivity.
Qed.

(** C1: when the transcribed text holds at least one code unit of the
    Bengali block U+0980-U+09FF (one is enough), the only outgoing call is
    the transcription, the translation service is not called, and the
    success response has [bengali] equal to [original], the text itself. *)
Theorem bengali_text_is_not_translated (P : Platform) (event : Event)
    (key : jstring) (audio : Buffer) (openaiResponse : HttpResponse)
    (transcriptionResult : JsValue) (original : jstring) :
  transcription_succeeds P event key audio openaiResponse transcriptionResult ->
  get_prop transcriptionResult "text" = Ok (JStr original) ->
  (exists c, In c original /\ (0x980 <= c <= 0x9FF)%N) ->
  exists r tr,
    run P event = (Ok r, tr)
    /\ tr = [whisper_request key audio]
    /\ existsb is_translate_call tr = false
    /\ statusCode r = 200
    /\ field r "original" = Some (JStr original)
    /\ field r "bengali" = Some (JStr original)
    /\ field r "bengali" = field r "original".
Proof.
  intros Hts Htxt (c & Hin & Hc).
  assert (Hb : existsb in_bengali_block original = true).
  { apply existsb_exists. exists c. split; [exact Hin|]. now apply in_bengali_block_iff. }
  assert (Hne : original <> []) by (intros ->; contradiction).
  pose proof (run_transcribed _ _ _ _ _ _ _ Hts Htxt Hne) as Hrun.
  rewrite translate_step_bengali in Hrun by exact Hb.
  destruct (success_fields P (JStr original) (JStr original)
              (reported transcriptionResult "language")
              (reported transcriptionResult "duration"))
    as (Hs & _ & Ho & Hbn & _); try discriminate.
  eexists _, _. split; [exact Hrun|].
  repeat split; try assumption; reflexivity.
Qed.

Lemma bengali_text_is_not_translated_witness :
  exists r tr,
    run mixed_platform (multipart_event (lit "AAAA")) = (Ok r, tr)
    /\ existsb is_translate_call tr = false
    /\ field r "bengali" = Some (JStr mixed_text).
Proof.
  assert (Hts : transcription_succeeds mixed_platform (multipart_event (lit "AAAA"))
                  (lit "sk-test") small_audio
                  (mkHttp 200 mixed_json) (JObj [ (lit "text", JStr mixed_text) ])).
  { constructor; [constructor|..]; try reflexivity; discriminate. }
  destruct (bengali_text_is_not_translated _ _ _ _ _ _ mixed_text Hts eq_refl)
    as (r & tr & Hrun & _ & Hno & _ & _ & Hb & _).
  { exists 0x995%N. split; [|lia]. unfold mixed_text. simpl. tauto. }
  exists r, tr. repeat split; assumption.
Defined.

(* ------------------------------------------------------------------ *)
(** ** Translation failures *)

(** On each of them the helper returns [null]. *)
Lemma translation_fails_null P txt t :
  translation_fails P txt -> exists t', translateToBengali P txt t = (Ok JNull, t').
Proof.
  intros H. rewrite translateToBengali_spec.
  destruct H as [e He | q e He Hf | q r He Hf Hok | q r e He Hf Hok Hj
                | q r data He Hf Hok Hj Hseg];
    rewrite He; try rewrite Hf; try rewrite Hok; try rewrite Hj; try rewrite Hseg;
    eexists; reflexivity.
Qed.

(** Bodies that lack a first segment, or hold an empty or [null] one, make
    the guard falsy. *)
Lemma missing_segment_is_falsy data :
  data = JNull \/ data = JArr [] \/ (exists props, data = JObj props /\ lookup (lit "0") props = None)
  \/ (exists r3, data = JArr (JNull :: r3))
  \/ (exists r3, data = JArr (JArr [] :: r3))
  \/ (exists r2 r3, data = JArr (JArr (JNull :: r2) :: r3))
  \/ (exists r2 r3, data = JArr (JArr (JArr [] :: r2) :: r3))
  \/ (exists r1 r2 r3, data = JArr (JArr (JArr (JNull :: r1) :: r2) :: r3))
  \/ expected_shape data [] ->
  truthy (first_segment data) = false.
Proof.
  intros [-> | [-> | [(props & -> & Hp) | [(r3 & ->) | [(r3 & ->) | [(r2 & r3 & ->)
         | [(r2 & r3 & ->) | [(r1 & r2 & r3 & ->) | (r1 & r2 & r3 & ->)]]]]]]]];
    try reflexivity.
  unfold first_segment, get_index0. simpl truthy. rewrite Hp. reflexivity.
Qed.

(** C10: when the translation service answers with the expected nested
    array whose first segment is the empty string, the helper returns
    [null], not the empty string, and the success response has [bengali]
    equal to [original]. *)
Theorem empty_translation_falls_back (P : Platform) (event : Event)
    (key : jstring) (audio : Buffer) (openaiResponse : HttpResponse)
    (transcriptionResult : JsValue) (original q : jstring)
    (response : HttpResponse) (data : JsValue) :
  transcription_succeeds P event key audio openaiResponse transcriptionResult ->
  get_prop transcriptionResult "text" = Ok (JStr original) ->
  translation_attempted original ->
  encodeURIComponent P original = Ok q ->
  fetch P (translate_request q) = Ok response ->
  ok response = true ->
  json P response = Ok data ->
  expected_shape data [] ->
  (forall t, translateToBengali P original t = (Ok JNull, t ++ [translate_request q]))
  /\ exists r,
       run P event = (Ok r, [whisper_request key audio; translate_request q])
       /\ statusCode r = 200
       /\ field r "original" = Some (JStr original)
       /\ field r "bengali" = Some (JStr original).
Proof.
  intros Hts Htxt Hatt He Hf Hok Hj Hshape.
  assert (Hnull : forall t,
             translateToBengali P original t = (Ok JNull, t ++ [translate_request q])).
  { intros t. rewrite translateToBengali_spec, He, Hf, Hok, Hj.
    rewrite missing_segment_is_falsy by (repeat right; exact Hshape). reflexivity. }
  split; [exact Hnull|].
  assert (Hne : original <> []) by (intros ->; destruct Hatt as [_ H]; now apply H).
  pose proof (run_transcribed _ _ _ _ _ _ _ Hts Htxt Hne) as Hrun.
  rewrite (translate_step_attempted _ _ _ Hatt), Hnull in Hrun. simpl in Hrun.
  destruct (success_fields P (JStr original) (JStr original)
              (reported transcriptionResult "language")
              (reported transcriptionResult "duration"))
    as (Hs & _ & Ho & Hb & _); try discriminate.
  eexists. split; [exact Hrun|]. repeat split; assumption.
Qed.

(** C2 (amended): when the translation step is attempted and fails by a
    thrown exception (a rejected or timed-out call, a body that is not JSON,
    a text that cannot be encoded), by a non-success status, or by a body
    whose [data[0][0][0]] is missing or falsy, the handler still answers
    200, [bengali] equals [original], and the body has the eight success
    properties only, none of them about the failure. *)
Theorem failed_translation_falls_back (P : Platform) (event : Event)
    (key : jstring) (audio : Buffer) (openaiResponse : HttpResponse)
    (transcriptionResult : JsValue) (original : jstring) :
  transcription_succeeds P event key audio openaiResponse transcriptionResult ->
  get_prop transcriptionResult "text" = Ok (JStr original) ->
  translation_attempted original ->
  translation_fails P original ->
  exists r tr,
    run P event = (Ok r, tr)
    /\ statusCode r = 200
    /\ field r "original" = Some (JStr original)
    /\ field r "bengali" = Some (JStr original)
    /\ field_names r = success_field_names
    /\ field r "error" = None.
Proof.
  intros Hts Htxt Hatt Hfail.
  assert (Hne : original <> []) by (intros ->; destruct Hatt as [_ H]; now apply H).
  pose proof (run_transcribed _ _ _ _ _ _ _ Hts Htxt Hne) as Hrun.
  rewrite (translate_step_attempted _ _ _ Hatt) in Hrun.
  destruct (translation_fails_null P original [whisper_request key audio] Hfail)
    as [t' Hnull].
  rewrite Hnull in Hrun. simpl in Hrun.
  destruct (success_fields P (JStr original) (JStr original)
              (reported transcriptionResult "language")
              (reported transcriptionResult "duration"))
    as (Hs & Hn & Ho & Hb & _ & _ & Herr); try discriminate.
  eexists _, _. split; [exact Hrun|]. repeat split; assumption.
Qed.

Lemma hello_attempted : translation_attempted (lit "Hello").
Proof. split; [reflexivity | discriminate]. Defined.

Lemma empty_translation_falls_back_witness :
  exists r,
    run (hello_platform (mkHttp 200 empty_segment_body) empty_segment_data)
        (multipart_event (lit "AAAA"))
    = (Ok r, [whisper_request (lit "sk-test") small_audio; hello_request])
    /\ field r "bengali" = Some (JStr (lit "Hello")).
Proof.
  assert (Hts : transcription_succeeds
                  (hello_platform (mkHttp 200 empty_segment_body) empty_segment_data)
                  (multipart_event (lit "AAAA")) (lit "sk-test") small_audio
                  (mkHttp 200 hello_json) hello_result)
    by transcribed_by_evaluation.
  destruct (empty_translation_falls_back _ _ _ _ _ _ (lit "Hello") (lit "Hello")
              (mkHttp 200 empty_segment_body) empty_segment_data
              Hts eq_refl hello_attempted eq_refl eq_refl eq_refl eq_refl)
    as (_ & r & Hrun & _ & _ & Hb).
  { exists [JStr (lit "Hello")], [], [JNull; JStr (lit "en")]. reflexivity. }
  exists r. split; assumption.
Defined.

(** The translation service is down: status 503. *)
Lemma failed_translation_falls_back_witness :
  exists r tr,
    run (hello_platform (mkHttp 503 (lit "Service Unavailable")) JNull)
        (multipart_event (lit "AAAA")) = (Ok r, tr)
    /\ statusCode r = 200
    /\ field r "bengali" = Some (JStr (lit "Hello"))
    /\ field r "error" = None.
Proof.
  assert (Hts : transcription_succeeds
                  (hello_platform (mkHttp 503 (lit "Service Unavailable")) JNull)
                  (multipart_event (lit "AAAA")) (lit "sk-test") small_audio
                  (mkHttp 200 hello_json) hello_result)
    by transcribed_by_evaluation.
  destruct (failed_translation_falls_back _ _ _ _ _ _ (lit "Hello") Hts
              eq_refl hello_attempted)
    as (r & tr & Hrun & Hs & _ & Hb & _ & He).
  { apply (tf_status _ _ (lit "Hello") (mkHttp 503 (lit "Service Unavailable")));
      reflexivity. }
  exists r, tr. repeat split; assumption.
Defined.

(** C2 as stated fails: a JSON string, oops, is not a nested array, but the
    guard of line 219 indexes into the string, the helper returns its first
    letter, and [bengali] is that letter while [original] is Hello. *)
Lemma malformed_translation_is_not_caught :
  transcription_succeeds string_body_platform (multipart_event (lit "AAAA"))
    (lit "sk-test") small_audio (mkHttp 200 hello_json) hello_result
  /\ get_prop hello_result "text" = Ok (JStr (lit "Hello"))
  /\ translation_attempted (lit "Hello")
  /\ fetch string_body_platform hello_request = Ok (mkHttp 200 (quoted "oops"))
  /\ json string_body_platform (mkHttp 200 (quoted "oops")) = Ok (JStr (lit "oops"))
  /\ (forall segment, ~ expected_shape (JStr (lit "oops")) segment)
  /\ exists r,
       run string_body_platform (multipart_event (lit "AAAA"))
       = (Ok r, [whisper_request (lit "sk-test") small_audio; hello_request])
       /\ statusCode r = 200
       /\ field r "original" = Some (JStr (lit "Hello"))
       /\ field r "bengali" = Some (JStr (lit "o"))
       /\ field r "bengali" <> field r "original".
Proof.
  split; [transcribed_by_evaluation|].
  split; [reflexivity|]. split; [apply hello_attempted|].
  split; [reflexivity|]. split; [reflexivity|].
  split.
  { intros segment H. unfold expected_shape in H.
    destruct H as (r1 & r2 & r3 & H). discriminate H. }
  eexists. split; [vm_compute; reflexivity|].
  repeat split; try reflexivity.
  vm_compute. discriminate.
Qed.

(* ------------------------------------------------------------------ *)
(** ** Duration and language *)

Lemma truthy_defined v : truthy v = true -> v <> JUndefined.
Proof. intros H ->. discriminate. Qed.

Lemma js_or_defined a b : b <> JUndefined -> js_or a b <> JUndefined.
Proof.
  intros Hb. unfold js_or. destruct (truthy a) eqn:E; [now apply truthy_defined | exact Hb].
Qed.

(** The translation step yields the text it was given or a truthy
    translation of it. *)
Lemma translate_step_defined P v t b t' :
  translate_step P v t = (Ok b, t') -> v <> JUndefined -> b <> JUndefined.
Proof.
  unfold translate_step, regex_test. unfold bind at 1, lift at 1.
  destruct (printable v); [|discriminate].
  destruct (regex_bengali_test v); cbv beta iota delta [negb].
  { unfold ret. intros H; injection H as <- _. auto. }
  destruct v as [| | | | s | | |]; try (unfold throw; discriminate).
  destruct (truthy (JStr (trim s))).
  2:{ unfold ret. intros H; injection H as <- _. auto. }
  unfold try_catch, bind, ret.
  destruct (translateToBengali P s t) as [[x|e] t''].
  - destruct (truthy x) eqn:E; intros H; injection H as <- _; intros _;
      [now apply truthy_defined | discriminate].
  - intros H; injection H as <- _. auto.
Qed.

(** A successful transcription is answered by the success response or, when
    the pipeline throws, by the 500 of the top-level handler. *)
Lemma run_success_shape P event key audio openaiResponse transcriptionResult r tr :
  transcription_succeeds P event key audio openaiResponse transcriptionResult ->
  run P event = (Ok r, tr) ->
  statusCode r = 200 ->
  exists o b,
    o <> JUndefined /\ b <> JUndefined
    /\ r = success_response P o b (reported transcriptionResult "language")
             (reported transcriptionResult "duration")
    /\ (forall name,
          get_prop transcriptionResult name = Ok (reported transcriptionResult name)).
Proof.
  intros [Hv Hf Hok Hj] Hrun Hs.
  rewrite (run_post _ _ (v_method _ _ _ _ Hv)) in Hrun. unfold try_catch in Hrun.
  rewrite (pipeline_validated _ _ _ _ Hv), Hf, Hok in Hrun.
  destruct (get_prop transcriptionResult "text") as [txt|e] eqn:Ht.
  - rewrite (finish_spec _ _ _ _ _ Hj Ht) in Hrun.
    destruct (translate_step P (js_or txt (JStr [])) [whisper_request key audio])
      as [[b|e] t'] eqn:E.
    + injection Hrun as <- _.
      exists (js_or txt (JStr [])), b.
      assert (Ho : js_or txt (JStr []) <> JUndefined) by (apply js_or_defined; discriminate).
      split; [exact Ho|].
      split; [eapply translate_step_defined; eassumption|].
      split; [reflexivity|].
      intros name. exact (get_prop_reported _ _ name _ Ht).
    + injection Hrun as <- _. discriminate Hs.
  - unfold finish, bind, lift in Hrun. rewrite Hj, Ht in Hrun.
    injection Hrun as <- _. discriminate Hs.
Qed.

(** C8 (amended): in the success response, [duration] is the duration the
    service reports when that value is truthy, as [JSON.stringify] writes
    it: a finite non-zero number is returned as it is, a number that
    overflowed to an infinity is written [null]; [duration] is [null] when
    the service reports none or a falsy one (such as 0).
    [language_detected] is the reported language when truthy, as written
    (a non-empty string as it is), and ["unknown"] when none or a falsy one
    (such as the empty string) is reported.  The answer of the service may
    be any JSON value for which the handler reaches the success response. *)
Theorem success_reports_duration_and_language (P : Platform) (event : Event)
    (key : jstring) (audio : Buffer) (openaiResponse : HttpResponse)
    (transcriptionResult : JsValue) (r : Response) (tr : Trace) :
  transcription_succeeds P event key audio openaiResponse transcriptionResult ->
  run P event = (Ok r, tr) ->
  statusCode r = 200 ->
  exists duration language,
    get_prop transcriptionResult "duration" = Ok duration
    /\ get_prop transcriptionResult "language" = Ok language
    /\ (truthy duration = true -> field r "duration" = Some (jsonify duration))
    /\ (forall q, duration = JNum q -> ~ q == 0 -> field r "duration" = Some (JNum q))
    /\ (forall negative, duration = JInfinity negative -> field r "duration" = Some JNull)
    /\ (truthy duration = false -> field r "duration" = Some JNull)
    /\ (truthy language = true -> field r "language_detected" = Some (jsonify language))
    /\ (forall s, language = JStr s -> s <> [] ->
                  field r "language_detected" = Some (JStr s))
    /\ (truthy language = false ->
        field r "language_detected" = Some (JStr (lit "unknown"))).
Proof.
  intros Hts Hrun Hs.
  destruct (run_success_shape _ _ _ _ _ _ _ _ Hts Hrun Hs)
    as (o & b & Ho & Hb & -> & Hget).
  destruct (success_fields P o b (reported transcriptionResult "language")
              (reported transcriptionResult "duration") Ho Hb)
    as (_ & _ & _ & _ & Hl & Hd & _).
  exists (reported transcriptionResult "duration"), (reported transcriptionResult "language").
  split; [apply Hget|]. split; [apply Hget|].
  rewrite Hl, Hd. unfold js_or.
  repeat split.
  - intros ->. reflexivity.
  - intros q -> Hq. simpl.
    destruct (Qeq_bool q 0) eqn:E; [|reflexivity].
    apply Qeq_bool_iff in E. contradiction.
  - intros negative ->. reflexivity.
  - intros ->. reflexivity.
  - intros ->. reflexivity.
  - intros s -> Hne. destruct s; [congruence | reflexivity].
  - intros ->. reflexivity.
Qed.

Lemma success_reports_duration_and_language_witness :
  exists r tr,
    run verbose_platform (multipart_event (lit "AAAA")) = (Ok r, tr)
    /\ field r "duration" = Some (JNum (7 # 2))
    /\ field r "language_detected" = Some (JStr (lit "bengali")).
Proof.
  assert (Hts : transcription_succeeds verbose_platform (multipart_event (lit "AAAA"))
                  (lit "sk-test") small_audio (mkHttp 200 verbose_json) (JObj verbose_props))
    by transcribed_by_evaluation.
  assert (Hrun : run verbose_platform (multipart_event (lit "AAAA"))
                 = (Ok (success_response verbose_platform (JStr [0x995%N]) (JStr [0x995%N])
                          (JStr (lit "bengali")) (JNum (7 # 2))),
                    [whisper_request (lit "sk-test") small_audio]))
    by reflexivity.
  destruct (success_reports_duration_and_language _ _ _ _ _ _ _ _ Hts Hrun eq_refl)
    as (duration & language & Hd & Hl & _ & Hnum & _ & _ & _ & Hstr & _).
  injection Hd as <-. injection Hl as <-.
  eexists _, _. split; [exact Hrun|].
  split; [apply (Hnum (7 # 2)) | apply (Hstr (lit "bengali"))];
    try reflexivity; discriminate.
Defined.

(** C8 as stated fails: the service reports the duration 0, and the success
    response's [duration] is [null], not 0; likewise a reported duration of
    1e400, read as an infinity, is written [null]. *)
Lemma zero_duration_is_reported_as_null :
  (transcription_succeeds silent_platform (multipart_event (lit "AAAA"))
     (lit "sk-test") small_audio (mkHttp 200 silent_json) (JObj silent_props)
   /\ lookup (lit "duration") silent_props = Some (JNum 0)
   /\ exists r,
        run silent_platform (multipart_event (lit "AAAA"))
        = (Ok r, [whisper_request (lit "sk-test") small_audio])
        /\ statusCode r = 200
        /\ field r "duration" = Some JNull
        /\ field r "duration" <> Some (JNum 0))
  /\ (transcription_succeeds overflow_platform (multipart_event (lit "AAAA"))
        (lit "sk-test") small_audio (mkHttp 200 overflow_json) (JObj overflow_props)
      /\ lookup (lit "duration") overflow_props = Some (JInfinity false)
      /\ exists r,
           run overflow_platform (multipart_event (lit "AAAA"))
           = (Ok r, [whisper_request (lit "sk-test") small_audio])
           /\ statusCode r = 200
           /\ field r "duration" = Some JNull).
Proof.
  split.
  - split; [transcribed_by_evaluation|].
    split; [reflexivity|].
    eexists. split; [vm_compute; reflexivity|].
    repeat split; try reflexivity.
    vm_compute. discriminate.
  - split; [transcribed_by_evaluation|].
    split; [reflexivity|].
    eexists. split; [vm_compute; reflexivity|].
    repeat split; reflexivity.
Qed.

(* ------------------------------------------------------------------ *)
(** ** The size check *)

Lemma Math_round_megabytes (len : N) :
  Math_round (megabytes len) = (Z.of_N len + 512 * 1024) / (1024 * 1024).
Proof.
  unfold Math_round, megabytes, Qfloor, Qplus. cbn [Qnum Qden].
  change (Z.pos (1048576 * 2)) with (1048576 * 2).
  replace (Z.of_N len * 2 + 1 * 1048576) with ((Z.of_N len + 512 * 1024) * 2) by lia.
  rewrite Z.div_mul_cancel_r by lia. reflexivity.
Qed.

(** [Math.round] of the size in MiB is a nearest integer to it. *)
Lemma Math_round_megabytes_nearest (len : N) :
  2 * Z.abs (Math_round (megabytes len) * (1024 * 1024) - Z.of_N len) <= 1024 * 1024.
Proof.
  rewrite Math_round_megabytes.
  pose proof (Z.div_mod (Z.of_N len + 512 * 1024) (1024 * 1024) ltac:(lia)) as H.
  pose proof (Z.mod_pos_bound (Z.of_N len + 512 * 1024) (1024 * 1024) ltac:(lia)) as B.
  lia.
Qed.

(** The calls a computation makes are appended to the log. *)
Lemma translateToBengali_extends P s t x t' :
  translateToBengali P s t = (x, t') -> exists ext, t' = t ++ ext.
Proof.
  rewrite translateToBengali_spec.
  destruct (encodeURIComponent P s) as [q|e]; intros H; injection H as _ <-.
  - eauto.
  - exists []. now rewrite app_nil_r.
Qed.

Lemma translate_step_extends P v t x t' :
  translate_step P v t = (x, t') -> exists ext, t' = t ++ ext.
Proof.
  unfold translate_step, regex_test. unfold bind at 1, lift at 1.
  destruct (printable v).
  2:{ intros H; injection H as _ <-. exists []. now rewrite app_nil_r. }
  destruct (regex_bengali_test v); cbv beta iota delta [negb].
  { unfold ret. intros H; injection H as _ <-. exists []. now rewrite app_nil_r. }
  destruct v as [| | | | s | | |];
    try (unfold throw; intros H; injection H as _ <-; exists []; now rewrite app_nil_r).
  destruct (truthy (JStr (trim s))).
  2:{ unfold ret. intros H; injection H as _ <-. exists []. now rewrite app_nil_r. }
  unfold try_catch, bind, ret.
  destruct (translateToBengali P s t) as [[y|e] t''] eqn:E;
    apply translateToBengali_extends in E.
  - destruct (truthy y); intros H; injection H as _ <-; exact E.
  - intros H; injection H as _ <-; exact E.
Qed.

Lemma finish_extends P openaiResponse t x t' :
  finish P openaiResponse t = (x, t') -> exists ext, t' = t ++ ext.
Proof.
  unfold finish, bind, lift, ret.
  destruct (json P openaiResponse) as [res|e].
  2:{ intros H; injection H as _ <-. exists []. now rewrite app_nil_r. }
  destruct (get_prop res "text") as [txt|e].
  2:{ intros H; injection H as _ <-. exists []. now rewrite app_nil_r. }
  destruct (translate_step P (js_or txt (JStr [])) t) as [[b|e] t''] eqn:E;
    apply translate_step_extends in E.
  - destruct (get_prop res "language"), (get_prop res "duration");
      intros H; injection H as _ <-; exact E.
  - intros H; injection H as _ <-; exact E.
Qed.

(** C5: at the size check, that is for a POST that has passed the checks
    before it (credential configured, body not a probe, content type
    multipart), a decoded body strictly longer than 25 MiB is answered 400
    with [fileSize] the length in MiB rounded to the nearest integer
    followed by ["MB"] (26 MiB gives ["26MB"]), and no outgoing call is
    made; a decoded body of exactly 25 MiB passes the check and is sent to
    the transcription service. *)
Theorem oversized_audio_is_rejected (P : Platform) (event : Event)
    (key : jstring) (audio : Buffer) :
  httpMethod event = lit "POST" ->
  env_OPENAI_API_KEY P = Some key ->
  key <> [] ->
  is_probe P event = false ->
  not_multipart (content_type event) = false ->
  decode_body P event = Ok audio ->
  ((25 * 1024 * 1024 < buf_length audio)%N ->
   exists r m,
     run P event = (Ok r, [])
     /\ statusCode r = 400
     /\ field_names r = [lit "error"; lit "fileSize"]
     /\ field r "fileSize" = Some (JStr (Z_to_dec m ++ lit "MB"))
     /\ m = (Z.of_N (buf_length audio) + 512 * 1024) / (1024 * 1024)
     /\ 2 * Z.abs (m * (1024 * 1024) - Z.of_N (buf_length audio)) <= 1024 * 1024
     /\ (buf_length audio = (26 * 1024 * 1024)%N ->
         field r "fileSize" = Some (JStr (lit "26MB"))))
  /\ (buf_length audio = (25 * 1024 * 1024)%N ->
      exists r tr, run P event = (Ok r, whisper_request key audio :: tr)).
Proof.
  intros Hm Hk Hne Hp Hc Ha. split.
  - intros Hlen.
    exists (too_large audio), (Math_round (megabytes (buf_length audio))).
    split.
    { rewrite (run_post _ _ Hm). unfold try_catch, pipeline. rewrite Hk.
      destruct key as [|k ey]; [congruence|].
      unfold bind at 1. rewrite probe_block_spec, Hp, Hc.
      unfold bind, lift. rewrite Ha.
      apply N.ltb_lt in Hlen. unfold MAX_BYTES. rewrite Hlen. reflexivity. }
    repeat split; try reflexivity.
    + apply Math_round_megabytes.
    + apply Math_round_megabytes_nearest.
    + intros H. unfold field, too_large. simpl body. rewrite H. reflexivity.
  - intros Hlen.
    assert (Hv : validated P event key audio).
    { constructor; try assumption. rewrite Hlen. unfold MAX_BYTES. lia. }
    rewrite (run_post _ _ Hm). unfold try_catch.
    rewrite (pipeline_validated _ _ _ _ Hv).
    destruct (fetch P (whisper_request key audio)) as [resp|e].
    2:{ eexists _, []. reflexivity. }
    destruct (ok resp).
    2:{ eexists _, []. reflexivity. }
    destruct (finish P resp [whisper_request key audio]) as [[r|e] t'] eqn:E;
      apply finish_extends in E; destruct E as [ext ->]; eexists _, ext; reflexivity.
Qed.

Lemma big_audio_length : buf_length big_audio = (26 * 1024 * 1024)%N.
Proof.
  unfold big_audio, decode_letters_A, big_body. cbn [buf_length].
  rewrite repeat_length, N2Nat.id. reflexivity.
Qed.

Lemma oversized_audio_is_rejected_witness :
  exists r,
    run (big_platform (Some (lit "sk-test"))) (multipart_event big_body) = (Ok r, [])
    /\ statusCode r = 400
    /\ field r "fileSize" = Some (JStr (lit "26MB")).
Proof.
  destruct (oversized_audio_is_rejected (big_platform (Some (lit "sk-test")))
              (multipart_event big_body) (lit "sk-test") big_audio
              eq_refl eq_refl ltac:(discriminate) eq_refl eq_refl eq_refl) as [H _].
  destruct H as (r & m & Hrun & Hs & _ & _ & _ & _ & H26).
  { rewrite big_audio_length. reflexivity. }
  exists r. split; [exact Hrun|]. split; [exact Hs|]. exact (H26 big_audio_length).
Defined.

(* ------------------------------------------------------------------ *)
(** ** Further properties of the handler *)

(** The helper never throws: it returns [null] or a truthy value, after at
    most one call. *)
Lemma translateToBengali_cases P s t :
  exists v,
    (v = JNull \/ truthy v = true)
    /\ (translateToBengali P s t = (Ok v, t)
        \/ exists q,
             encodeURIComponent P s = Ok q
             /\ translateToBengali P s t = (Ok v, t ++ [translate_request q])).
Proof.
  rewrite translateToBengali_spec.
  destruct (encodeURIComponent P s) as [q|e].
  2:{ exists JNull. split; [now left | now left]. }
  assert (H : forall v, v = JNull \/ truthy v = true ->
            exists v0, (v0 = JNull \/ truthy v0 = true)
              /\ ((Ok v, t ++ [translate_request q]) = (Ok v0, t)
                  \/ exists q0, Ok q = Ok q0
                       /\ (Ok v, t ++ [translate_request q])
                          = (Ok v0, t ++ [translate_request q0]))).
  { intros v Hv. exists v. split; [exact Hv|]. right. exists q. auto. }
  destruct (fetch P (translate_request q)) as [response|e]; [|apply H; now left].
  destruct (ok response); [|apply H; now left].
  destruct (json P response) as [data|e]; [|apply H; now left].
  destruct (truthy (first_segment data)) eqn:E; apply H; [now right | now left].
Qed.

(** The translation step, the conversion of the regular expression's
    argument set apart. *)
Lemma translate_step_eq P v t :
  translate_step P v t
  = if printable v then
      (if negb (regex_bengali_test v) then
         match v with
         | JStr s =>
             if truthy (JStr (trim s)) then
               try_catch
                 (translatedText <- translateToBengali P s ;;
                  if truthy translatedText then ret translatedText else ret v)
                 (fun _ => ret v)
             else ret v
         | _ => throw (TypeError "bengaliText.trim is not a function")
         end
       else ret v) t
    else (Throw (TypeError "Cannot convert object to primitive value"), t).
Proof.
  unfold translate_step, regex_test. unfold bind at 1, lift at 1.
  destruct (printable v); reflexivity.
Qed.

(** The translation step throws before calling out, or yields the text it
    was given or a truthy translation, after at most one call. *)
Lemma translate_step_cases P v t :
  (exists e, translate_step P v t = (Throw e, t))
  \/ (exists b,
        (b = v \/ truthy b = true)
        /\ (translate_step P v t = (Ok b, t)
            \/ exists s q,
                 v = JStr s /\ encodeURIComponent P s = Ok q
                 /\ translate_step P v t = (Ok b, t ++ [translate_request q]))).
Proof.
  rewrite translate_step_eq.
  destruct (printable v); [|left; eexists; reflexivity].
  destruct (regex_bengali_test v); cbv beta iota delta [negb].
  { right. exists v. split; [now left | now left]. }
  destruct v as [| | | | s | | |];
    try (left; eexists; reflexivity).
  destruct (truthy (JStr (trim s))).
  2:{ right. exists (JStr s). split; [now left | now left]. }
  unfold try_catch, bind, ret. right.
  destruct (translateToBengali_cases P s t) as (y & Hy & [-> | (q & Hq & ->)]).
  - destruct (truthy y) eqn:Ey.
    + exists y. split; [now right | now left].
    + exists (JStr s). split; [now left | now left].
  - destruct (truthy y) eqn:Ey.
    + exists y. split; [now right|]. right. exists s, q. auto.
    + exists (JStr s). split; [now left|]. right. exists s, q. auto.
Qed.

(** Every invocation ends in one of the answers of [outcome]. *)
Lemma run_outcome P event : exists r tr, run P event = (Ok r, tr) /\ outcome P r tr.
Proof.
  unfold run, handler.
  destruct (jstring_eqb (httpMethod event) (lit "OPTIONS")).
  { eexists _, _. split; [reflexivity | constructor]. }
  destruct (jstring_eqb (httpMethod event) (lit "POST")); cbv beta iota delta [negb].
  2:{ eexists _, _. split; [reflexivity | constructor]. }
  unfold try_catch, pipeline.
  destruct (env_OPENAI_API_KEY P) as [[|k ey]|] eqn:Ek;
    try (eexists _, _; split; [reflexivity | constructor]).
  unfold bind at 1. rewrite probe_block_spec.
  destruct (is_probe P event).
  { eexists _, _. split; [reflexivity | constructor]. }
  destruct (not_multipart (content_type event)).
  { eexists _, _. split; [reflexivity | constructor]. }
  unfold bind at 1, lift at 1.
  destruct (decode_body P event) as [audio|e].
  2:{ eexists _, _. split; [reflexivity | constructor]. }
  destruct (N.ltb MAX_BYTES (buf_length audio)).
  { eexists _, _. split; [reflexivity | constructor]. }
  unfold bind at 1, await_fetch. simpl app.
  destruct (fetch P (whisper_request (k :: ey) audio)) as [resp|e] eqn:Ef.
  2:{ eexists _, _. split; [reflexivity | now constructor]. }
  destruct (ok resp) eqn:Eok; cbv beta iota delta [negb].
  2:{ eexists _, _. split; [reflexivity | now constructor]. }
  unfold finish. unfold bind at 1, lift at 1.
  destruct (json P resp) as [res|e].
  2:{ eexists _, _. split; [reflexivity | now constructor]. }
  unfold bind at 1, lift at 1.
  destruct (get_prop res "text") as [txt|e] eqn:Et.
  2:{ eexists _, _. split; [reflexivity | now constructor]. }
  unfold bind at 1.
  assert (Ho : js_or txt (JStr []) <> JUndefined) by (apply js_or_defined; discriminate).
  assert (Hdef : forall b, b = js_or txt (JStr []) \/ truthy b = true -> b <> JUndefined).
  { intros b [-> | Hb]; [exact Ho | now apply truthy_defined]. }
  destruct (translate_step_cases P (js_or txt (JStr [])) [whisper_request (k :: ey) audio])
    as [[e ->] | (b & Hb & [-> | (s & q & _ & Hq & ->)])].
  - eexists _, _. split; [reflexivity | now constructor].
  - unfold bind, lift, ret.
    rewrite (get_prop_reported _ _ "language" _ Et), (get_prop_reported _ _ "duration" _ Et).
    eexists _, _. split; [reflexivity|]. constructor; auto.
  - unfold bind, lift, ret.
    rewrite (get_prop_reported _ _ "language" _ Et), (get_prop_reported _ _ "duration" _ Et).
    eexists _, _. split; [reflexivity|]. simpl app. econstructor; eauto.
Qed.

Lemma not_ok_status openaiResponse :
  ok openaiResponse = false -> status openaiResponse < 200 \/ 300 <= status openaiResponse.
Proof.
  unfold ok. intros H. apply andb_false_iff in H as [H | H].
  - apply Z.leb_gt in H. lia.
  - apply Z.ltb_ge in H. lia.
Qed.

(** X1: a request whose method is not POST never reaches the pipeline:
    OPTIONS is answered 200 with an empty body, any other method 405 with
    an [error], in both cases without any outgoing call and whatever the
    credential, the headers and the body are. *)
Theorem other_methods_never_reach_the_pipeline (P : Platform) (event : Event) :
  httpMethod event <> lit "POST" ->
  exists r,
    run P event = (Ok r, [])
    /\ (httpMethod event = lit "OPTIONS" -> statusCode r = 200 /\ body r = BodyText [])
    /\ (httpMethod event <> lit "OPTIONS" ->
        statusCode r = 405
        /\ field_names r = [lit "error"]
        /\ field r "error" = Some (JStr (lit "Method not allowed. Use POST."))).
Proof.
  intros Hpost. unfold run, handler.
  destruct (jstring_eqb (httpMethod event) (lit "OPTIONS")) eqn:Eo.
  - exists options_response. split; [reflexivity|]. split.
    + intros _. split; reflexivity.
    + intros H. apply jstring_eqb_eq in Eo. contradiction.
  - destruct (jstring_eqb (httpMethod event) (lit "POST")) eqn:Ep.
    { apply jstring_eqb_eq in Ep. contradiction. }
    exists method_not_allowed. split; [reflexivity|]. split.
    + intros H. rewrite H in Eo. discriminate Eo.
    + intros _. repeat split; reflexivity.
Qed.

Lemma other_methods_never_reach_the_pipeline_witness :
  (exists r, run unconfigured_platform (bare_event "OPTIONS") = (Ok r, [])
             /\ statusCode r = 200)
  /\ (exists r, run unconfigured_platform (bare_event "DELETE") = (Ok r, [])
                /\ statusCode r = 405).
Proof.
  split.
  - destruct (other_methods_never_reach_the_pipeline unconfigured_platform
                (bare_event "OPTIONS") ltac:(discriminate)) as (r & Hrun & H & _).
    exists r. split; [exact Hrun | exact (proj1 (H eq_refl))].
  - destruct (other_methods_never_reach_the_pipeline unconfigured_platform
                (bare_event "DELETE") ltac:(discriminate)) as (r & Hrun & _ & H).
    exists r. split; [exact Hrun | exact (proj1 (H ltac:(discriminate)))].
Defined.

(** X2: an invocation makes no call, or the transcription call alone, or
    the transcription call followed by one translation call; the credential
    travels only to the transcription URL, a translation call carries no
    authorization, and a translation call is made only under a 200 answer. *)
Theorem outgoing_calls_are_bounded (P : Platform) (event : Event) :
  exists r tr,
    run P event = (Ok r, tr)
    /\ (tr = []
        \/ exists key audio,
             env_OPENAI_API_KEY P = Some key
             /\ (tr = [whisper_request key audio]
                 \/ exists q, tr = [whisper_request key audio; translate_request q]))
    /\ (forall req, In req tr -> req_authorization req <> None -> req_url req = WHISPER_URL)
    /\ (forall req, In req tr -> is_translate_call req = true -> req_authorization req = None)
    /\ (forall req, In req tr -> is_translate_call req = true -> statusCode r = 200).
Proof.
  destruct (run_outcome P event) as (r & tr & Hrun & Hout).
  exists r, tr. split; [exact Hrun|].
  assert (Hw : forall key audio, is_translate_call (whisper_request key audio) = false)
    by reflexivity.
  destruct Hout;
    try (split; [now left|]; repeat split; intros req []);
    (split; [right; eexists _, _; split; [eassumption|]; eauto|]).
  - repeat split; intros req [<- | []]; try reflexivity; intros Ht;
      rewrite Hw in Ht; discriminate.
  - repeat split; intros req [<- | []]; try reflexivity; intros Ht;
      rewrite Hw in Ht; discriminate.
  - repeat split; intros req [<- | []]; try reflexivity; intros Ht;
      rewrite Hw in Ht; discriminate.
  - repeat split; intros req [<- | [<- | []]]; try reflexivity; intros Ht;
      try (rewrite Hw in Ht; discriminate); try (exfalso; now apply Ht).
Qed.

(** X3: the status of every answer is 200, 400, 405 or 500, or else it is
    the status of the transcription service's answer to the one call made,
    that status being outside 200-299; a 2xx status of the service other
    than 200 is never passed on. *)
Theorem status_codes_of_the_handler (P : Platform) (event : Event) :
  exists r tr,
    run P event = (Ok r, tr)
    /\ (statusCode r = 200 \/ statusCode r = 400 \/ statusCode r = 405
        \/ statusCode r = 500
        \/ exists key audio openaiResponse,
             tr = [whisper_request key audio]
             /\ fetch P (whisper_request key audio) = Ok openaiResponse
             /\ statusCode r = status openaiResponse
             /\ (status openaiResponse < 200 \/ 300 <= status openaiResponse)).
Proof.
  destruct (run_outcome P event) as (r & tr & Hrun & Hout).
  exists r, tr. split; [exact Hrun|].
  destruct Hout; try (simpl; tauto).
  do 4 right. exists key, audio, openaiResponse.
  split; [reflexivity|]. split; [assumption|]. split; [reflexivity|].
  now apply not_ok_status.
Qed.

(** X4: an answer has an [error] property exactly when its status is not
    200, and that property is then a string. *)
Theorem error_field_iff_not_200 (P : Platform) (event : Event) :
  exists r tr,
    run P event = (Ok r, tr)
    /\ (statusCode r = 200 <-> field r "error" = None)
    /\ (statusCode r <> 200 -> exists m, field r "error" = Some (JStr m)).
Proof.
  destruct (run_outcome P event) as (r & tr & Hrun & Hout).
  exists r, tr. split; [exact Hrun|].
  assert (Hyes : forall r0 m, field r0 "error" = Some (JStr m) -> statusCode r0 <> 200 ->
            (statusCode r0 = 200 <-> field r0 "error" = None)
            /\ (statusCode r0 <> 200 -> exists m0, field r0 "error" = Some (JStr m0))).
  { intros r0 m Hf Hs. split; [|eauto]. rewrite Hf. split; [contradiction | discriminate]. }
  assert (Hno : forall r0, field r0 "error" = None -> statusCode r0 = 200 ->
            (statusCode r0 = 200 <-> field r0 "error" = None)
            /\ (statusCode r0 <> 200 -> exists m0, field r0 "error" = Some (JStr m0))).
  { intros r0 Hf Hs. split; [tauto | contradiction]. }
  destruct Hout;
    try (eapply Hyes; [reflexivity | discriminate]);
    try (apply Hno; reflexivity).
  - eapply Hyes; [reflexivity|]. simpl.
    pose proof (not_ok_status _ H1). lia.
  - destruct (success_fields P o b l d) as (Hs & _ & _ & _ & _ & _ & He); auto.
  - destruct (success_fields P o b l d) as (Hs & _ & _ & _ & _ & _ & He); auto.
Qed.

(** A POST with a credential that is not a probe goes on to the content
    type check. *)
Lemma run_after_probe P event key :
  httpMethod event = lit "POST" ->
  env_OPENAI_API_KEY P = Some key ->
  key <> [] ->
  is_probe P event = false ->
  run P event
  = if not_multipart (content_type event)
    then (Ok (bad_content_type (content_type event)), [])
    else match decode_body P event with
         | Throw e => (Ok (internal_error P e), [])
         | Ok audio =>
             if N.ltb MAX_BYTES (buf_length audio) then (Ok (too_large audio), [])
             else try_catch
                    (openaiResponse <- await_fetch P (whisper_request key audio) ;;
                     if negb (ok openaiResponse) then
                       errorText <- lift (text openaiResponse) ;;
                       ret (upstream_error (status openaiResponse) errorText)
                     else finish P openaiResponse)
                    (fun e => ret (internal_error P e)) []
         end.
Proof.
  intros Hm Hk Hne Hp. rewrite (run_post _ _ Hm). unfold try_catch, pipeline.
  rewrite Hk. destruct key as [|k ey]; [congruence|].
  unfold bind at 1. rewrite probe_block_spec, Hp.
  destruct (not_multipart (content_type event)); [reflexivity|].
  unfold bind at 1, lift at 1.
  destruct (decode_body P event) as [audio|e]; [|reflexivity].
  destruct (N.ltb MAX_BYTES (buf_length audio)); reflexivity.
Qed.

(** X5: a POST (credential configured, body not a probe) whose content type
    is missing, empty or does not contain [multipart/form-data] is answered
    400 with [received] echoing the content type, or ["none"] when there is
    none; no call is made and the body is not decoded, so even a [null]
    body gets this 400. *)
Theorem wrong_content_type_is_rejected (P : Platform) (event : Event) (key : jstring) :
  httpMethod event = lit "POST" ->
  env_OPENAI_API_KEY P = Some key ->
  key <> [] ->
  is_probe P event = false ->
  not_multipart (content_type event) = true ->
  exists r,
    run P event = (Ok r, [])
    /\ statusCode r = 400
    /\ field_names r = [lit "error"; lit "received"]
    /\ field r "error"
       = Some (JStr (lit "Content-Type must be multipart/form-data for audio uploads"))
    /\ (forall ct, content_type event = Some ct -> ct <> [] ->
                   field r "received" = Some (JStr ct))
    /\ (content_type event = None \/ content_type event = Some [] ->
        field r "received" = Some (JStr (lit "none"))).
Proof.
  intros Hm Hk Hne Hp Hc.
  exists (bad_content_type (content_type event)).
  split; [rewrite (run_after_probe _ _ _ Hm Hk Hne Hp), Hc; reflexivity|].
  split; [reflexivity|].
  destruct (content_type event) as [[|c ct]|];
    (split; [reflexivity|]); (split; [reflexivity|]); split.
  all: try (intros ct0 H Hn;
            first [discriminate H | injection H as <-; first [reflexivity | congruence]]).
  all: intros [H | H]; first [discriminate H | reflexivity].
Qed.

Lemma wrong_content_type_is_rejected_witness :
  exists r,
    run offline_platform (upload_with_headers [ (lit "content-type", lit "text/plain") ])
    = (Ok r, [])
    /\ statusCode r = 400
    /\ field r "received" = Some (JStr (lit "text/plain")).
Proof.
  destruct (wrong_content_type_is_rejected offline_platform
              (upload_with_headers [ (lit "content-type", lit "text/plain") ])
              (lit "sk-test") eq_refl eq_refl ltac:(discriminate) eq_refl eq_refl)
    as (r & Hrun & Hs & _ & _ & Hr & _).
  exists r. split; [exact Hrun|]. split; [exact Hs|].
  apply (Hr (lit "text/plain")); [reflexivity | discriminate].
Defined.

(** X6: the content type is read under the spellings [content-type] and
    [Content-Type] only: when the headers hold neither, the POST is answered
    400 with [received: "none"], whatever other headers it carries. *)
Theorem content_type_needs_a_known_spelling (P : Platform) (event : Event)
    (key : jstring) :
  httpMethod event = lit "POST" ->
  env_OPENAI_API_KEY P = Some key ->
  key <> [] ->
  is_probe P event = false ->
  lookup (lit "content-type") (ev_headers event) = None ->
  lookup (lit "Content-Type") (ev_headers event) = None ->
  exists r,
    run P event = (Ok r, [])
    /\ statusCode r = 400
    /\ field r "received" = Some (JStr (lit "none")).
Proof.
  intros Hm Hk Hne Hp Hl Hu.
  assert (Hc : content_type event = None) by (unfold content_type; now rewrite Hl, Hu).
  exists (bad_content_type (content_type event)).
  rewrite (run_after_probe _ _ _ Hm Hk Hne Hp), Hc. repeat split; reflexivity.
Qed.

Lemma content_type_needs_a_known_spelling_witness :
  exists r,
    run offline_platform
      (upload_with_headers [ (lit "CONTENT-TYPE", lit "multipart/form-data; boundary=x") ])
    = (Ok r, [])
    /\ statusCode r = 400
    /\ field r "received" = Some (JStr (lit "none")).
Proof.
  exact (content_type_needs_a_known_spelling offline_platform
           (upload_with_headers
              [ (lit "CONTENT-TYPE", lit "multipart/form-data; boundary=x") ])
           (lit "sk-test") eq_refl eq_refl ltac:(discriminate) eq_refl eq_refl eq_refl).
Defined.

(** X7: a multipart POST whose body is [null] passes the probe and content
    type checks, fails in [Buffer.from], and is answered 500 by the
    top-level handler with [error], [message] and [timestamp]; no call is
    made. *)
Theorem null_body_is_an_internal_error (P : Platform) (event : Event) (key : jstring) :
  httpMethod event = lit "POST" ->
  env_OPENAI_API_KEY P = Some key ->
  key <> [] ->
  ev_body event = None ->
  not_multipart (content_type event) = false ->
  exists r m,
    run P event = (Ok r, [])
    /\ statusCode r = 500
    /\ field_names r = [lit "error"; lit "message"; lit "timestamp"]
    /\ field r "error" = Some (JStr (lit "Internal server error during transcription"))
    /\ field r "message" = Some (JStr m).
Proof.
  intros Hm Hk Hne Hb Hc.
  assert (Hp : is_probe P event = false) by (unfold is_probe; now rewrite Hb).
  rewrite (run_after_probe _ _ _ Hm Hk Hne Hp), Hc.
  unfold decode_body. rewrite Hb.
  eexists _, _. repeat split; reflexivity.
Qed.

Lemma null_body_is_an_internal_error_witness :
  exists r, run offline_platform bodiless_event = (Ok r, []) /\ statusCode r = 500.
Proof.
  destruct (null_body_is_an_internal_error offline_platform bodiless_event (lit "sk-test")
              eq_refl eq_refl ltac:(discriminate) eq_refl eq_refl)
    as (r & m & Hrun & Hs & _).
  exists r. split; assumption.
Defined.

(** X8: the probe needs [test] to be the boolean [true]: a body that parses
    as JSON but whose [test] is anything else (a number, a string, absent),
    or that parses to [null], is no probe; sent without a multipart content
    type it is answered 400, not the probe's 200 and not a 500. *)
Theorem probe_flag_must_be_true (P : Platform) (event : Event)
    (key b : jstring) (bodyData : JsValue) :
  httpMethod event = lit "POST" ->
  env_OPENAI_API_KEY P = Some key ->
  key <> [] ->
  ev_body event = Some b ->
  JSON_parse P b = Ok bodyData ->
  get_prop bodyData "test" <> Ok (JBool true) ->
  not_multipart (content_type event) = true ->
  exists r,
    run P event = (Ok r, [])
    /\ statusCode r = 400
    /\ field r "apiKeyPresent" = None
    /\ field r "error"
       = Some (JStr (lit "Content-Type must be multipart/form-data for audio uploads")).
Proof.
  intros Hm Hk Hne Hb Hj Ht Hc.
  assert (Hp : is_probe P event = false).
  { unfold is_probe. rewrite Hb, Hj.
    destruct (get_prop bodyData "test") as [[| |[|]| | | | |]|e]; try reflexivity.
    congruence. }
  exists (bad_content_type (content_type event)).
  split; [rewrite (run_after_probe _ _ _ Hm Hk Hne Hp), Hc; reflexivity|].
  split; [reflexivity|].
  destruct (content_type event) as [[|c ct]|]; split; reflexivity.
Qed.

Lemma probe_flag_must_be_true_witness :
  exists r,
    run loose_probe_platform loose_probe_event = (Ok r, [])
    /\ statusCode r = 400.
Proof.
  destruct (probe_flag_must_be_true loose_probe_platform loose_probe_event
              (lit "sk-test") loose_probe_text (JObj [ (lit "test", JNum 1) ])
              eq_refl eq_refl ltac:(discriminate) eq_refl eq_refl
              ltac:(discriminate) eq_refl)
    as (r & Hrun & Hs & _).
  exists r. split; assumption.
Defined.

(* ------------------------------------------------------------------ *)
(** ** After the transcription *)

(** A successful transcription whose [text] reads as [txt]. *)
Lemma run_transcribed_any P event key audio openaiResponse transcriptionResult txt :
  transcription_succeeds P event key audio openaiResponse transcriptionResult ->
  get_prop transcriptionResult "text" = Ok txt ->
  run P event
  = match translate_step P (js_or txt (JStr [])) [whisper_request key audio] with
    | (Ok bengaliText, tr) =>
        (Ok (success_response P (js_or txt (JStr [])) bengaliText
               (reported transcriptionResult "language")
               (reported transcriptionResult "duration")), tr)
    | (Throw e, tr) => (Ok (internal_error P e), tr)
    end.
Proof.
  intros [Hv Hf Hok Hj] Ht.
  rewrite (run_post _ _ (v_method _ _ _ _ Hv)). unfold try_catch.
  rewrite (pipeline_validated _ _ _ _ Hv), Hf, Hok.
  rewrite (finish_spec _ _ _ _ _ Hj Ht).
  destruct (translate_step P (js_or txt (JStr [])) [whisper_request key audio])
    as [[b|e] tr]; reflexivity.
Qed.

Lemma trim_start_nil s : trim_start s = [] -> forallb is_js_space s = true.
Proof.
  induction s as [|c s IH]; simpl; [reflexivity|].
  destruct (is_js_space c); [exact IH | discriminate].
Qed.

Lemma trim_start_all_space s :
  forallb is_js_space (trim_start s) = true -> forallb is_js_space s = true.
Proof.
  induction s as [|c s IH]; simpl; [reflexivity|].
  destruct (is_js_space c) eqn:E; [exact IH|].
  simpl. rewrite E. discriminate.
Qed.

(** Only a text made of white space trims to the empty string. *)
Lemma trim_nil s : trim s = [] -> forallb is_js_space s = true.
Proof.
  unfold trim. intros H.
  assert (H1 : trim_start (rev (trim_start s)) = []).
  { rewrite <- (rev_involutive (trim_start (rev (trim_start s)))), H. reflexivity. }
  apply trim_start_nil in H1.
  apply trim_start_all_space.
  rewrite forallb_forall in *. intros c Hc. apply H1. now apply in_rev in Hc.
Qed.

Lemma space_is_not_bengali c : is_js_space c = true -> in_bengali_block c = false.
Proof.
  unfold is_js_space, in_bengali_block. intros H.
  apply andb_false_iff.
  destruct (N.leb_spec 2432 c) as [Hlo|Hlo]; [right | now left].
  apply N.leb_gt.
  repeat (apply orb_true_iff in H; destruct H as [H | H]);
    repeat match goal with
           | H : (_ && _)%bool = true |- _ => apply andb_true_iff in H; destruct H
           | H : N.leb _ _ = true |- _ => apply N.leb_le in H
           | H : N.eqb _ _ = true |- _ => apply N.eqb_eq in H
           end;
    lia.
Qed.

Lemma blank_has_no_bengali s : trim s = [] -> existsb in_bengali_block s = false.
Proof.
  intros H. apply trim_nil in H. rewrite forallb_forall in H.
  destruct (existsb in_bengali_block s) eqn:E; [|reflexivity].
  apply existsb_exists in E as (c & Hc & Hb).
  rewrite (space_is_not_bengali c (H c Hc)) in Hb. discriminate.
Qed.

Lemma translate_step_blank P s t :
  trim s = [] -> translate_step P (JStr s) t = (Ok (JStr s), t).
Proof.
  intros H. rewrite translate_step_string, (blank_has_no_bengali s H), H. reflexivity.
Qed.

Lemma first_segment_expected data segment :
  expected_shape data segment -> segment <> [] -> first_segment data = JStr segment.
Proof.
  intros (r1 & r2 & r3 & ->) Hne.
  destruct segment as [|c s]; [congruence | reflexivity].
Qed.

(** X9: when the translation service answers with the expected nested array
    and a non-empty first segment, the success response has [original] the
    transcribed text and [bengali] that segment; the transcription call and
    the one translation call, made with the encoded untrimmed text, are the
    calls of the invocation. *)
Theorem translated_text_is_returned (P : Platform) (event : Event)
    (key : jstring) (audio : Buffer) (openaiResponse : HttpResponse)
    (transcriptionResult : JsValue) (original q : jstring)
    (response : HttpResponse) (data : JsValue) (segment : jstring) :
  transcription_succeeds P event key audio openaiResponse transcriptionResult ->
  get_prop transcriptionResult "text" = Ok (JStr original) ->
  translation_attempted original ->
  encodeURIComponent P original = Ok q ->
  fetch P (translate_request q) = Ok response ->
  ok response = true ->
  json P response = Ok data ->
  expected_shape data segment ->
  segment <> [] ->
  exists r,
    run P event = (Ok r, [whisper_request key audio; translate_request q])
    /\ statusCode r = 200
    /\ field_names r = success_field_names
    /\ field r "original" = Some (JStr original)
    /\ field r "bengali" = Some (JStr segment).
Proof.
  intros Hts Htxt Hatt He Hf Hok Hj Hshape Hseg.
  assert (Hne : original <> []) by (intros ->; destruct Hatt as [_ H]; now apply H).
  pose proof (run_transcribed _ _ _ _ _ _ _ Hts Htxt Hne) as Hrun.
  rewrite (translate_step_attempted _ _ _ Hatt) in Hrun.
  rewrite translateToBengali_spec, He, Hf, Hok, Hj in Hrun.
  rewrite (first_segment_expected _ _ Hshape Hseg) in Hrun.
  assert (Ht : truthy (JStr segment) = true) by (destruct segment; [congruence|reflexivity]).
  rewrite Ht in Hrun. cbv beta iota in Hrun. rewrite Ht in Hrun. simpl app in Hrun.
  destruct (success_fields P (JStr original) (JStr segment)
              (reported transcriptionResult "language")
              (reported transcriptionResult "duration"))
    as (Hs & Hn & Ho & Hb & _); try discriminate.
  eexists. split; [exact Hrun|]. repeat split; assumption.
Qed.

Lemma translated_text_is_returned_witness :
  exists r,
    run translating_platform (multipart_event (lit "AAAA"))
    = (Ok r, [whisper_request (lit "sk-test") small_audio; hello_request])
    /\ field r "original" = Some (JStr (lit "Hello"))
    /\ field r "bengali" = Some (JStr halo).
Proof.
  assert (Hts : transcription_succeeds translating_platform (multipart_event (lit "AAAA"))
                  (lit "sk-test") small_audio (mkHttp 200 hello_json) hello_result)
    by transcribed_by_evaluation.
  destruct (translated_text_is_returned _ _ _ _ _ _ (lit "Hello") (lit "Hello")
              (mkHttp 200 halo_body) halo_data halo
              Hts eq_refl hello_attempted eq_refl eq_refl eq_refl eq_refl)
    as (r & Hrun & _ & _ & Ho & Hb).
  { exists [JStr (lit "Hello")], [], [JNull; JStr (lit "en")]. reflexivity. }
  { discriminate. }
  exists r. split; [exact Hrun|]. split; assumption.
Defined.

(** X10: a transcript that is empty or made of white space only is returned
    as it is, [bengali] equal to [original], and the translation service is
    not called. *)
Theorem blank_text_is_not_translated (P : Platform) (event : Event)
    (key : jstring) (audio : Buffer) (openaiResponse : HttpResponse)
    (transcriptionResult : JsValue) (original : jstring) :
  transcription_succeeds P event key audio openaiResponse transcriptionResult ->
  get_prop transcriptionResult "text" = Ok (JStr original) ->
  forallb is_js_space original = true ->
  exists r,
    run P event = (Ok r, [whisper_request key audio])
    /\ statusCode r = 200
    /\ field r "original" = Some (JStr original)
    /\ field r "bengali" = Some (JStr original).
Proof.
  intros Hts Htxt Hblank.
  assert (Htrim : trim original = []).
  { unfold trim.
    assert (H1 : trim_start original = []).
    { clear -Hblank. induction original as [|c s IH]; [reflexivity|].
      simpl in *. apply andb_true_iff in Hblank as [-> Hs]. auto. }
    rewrite H1. reflexivity. }
  pose proof (run_transcribed_any _ _ _ _ _ _ _ Hts Htxt) as Hrun.
  assert (E : js_or (JStr original) (JStr []) = JStr original)
    by (destruct original; reflexivity).
  rewrite E, (translate_step_blank _ _ _ Htrim) in Hrun.
  destruct (success_fields P (JStr original) (JStr original)
              (reported transcriptionResult "language")
              (reported transcriptionResult "duration"))
    as (Hs & _ & Ho & Hb & _); try discriminate.
  eexists. split; [exact Hrun|]. repeat split; assumption.
Qed.

Lemma blank_text_is_not_translated_witness :
  exists r,
    run blank_platform (multipart_event (lit "AAAA"))
    = (Ok r, [whisper_request (lit "sk-test") small_audio])
    /\ field r "bengali" = Some (JStr (lit "   ")).
Proof.
  assert (Hts : transcription_succeeds blank_platform (multipart_event (lit "AAAA"))
                  (lit "sk-test") small_audio (mkHttp 200 blank_json)
                  (JObj [ (lit "text", JStr (lit "   ")) ]))
    by transcribed_by_evaluation.
  destruct (blank_text_is_not_translated _ _ _ _ _ _ (lit "   ") Hts eq_refl eq_refl)
    as (r & Hrun & _ & _ & Hb).
  exists r. split; assumption.
Defined.

(** X11: when the transcription answer has no [text], or a falsy one
    ([null], [false], 0, the empty string), [original] and [bengali] are
    both the empty string and the translation service is not called. *)
Theorem missing_text_becomes_empty (P : Platform) (event : Event)
    (key : jstring) (audio : Buffer) (openaiResponse : HttpResponse)
    (transcriptionResult txt : JsValue) :
  transcription_succeeds P event key audio openaiResponse transcriptionResult ->
  get_prop transcriptionResult "text" = Ok txt ->
  truthy txt = false ->
  exists r,
    run P event = (Ok r, [whisper_request key audio])
    /\ statusCode r = 200
    /\ field r "original" = Some (JStr [])
    /\ field r "bengali" = Some (JStr []).
Proof.
  intros Hts Htxt Hfalsy.
  pose proof (run_transcribed_any _ _ _ _ _ _ _ Hts Htxt) as Hrun.
  unfold js_or in Hrun. rewrite Hfalsy in Hrun.
  rewrite (translate_step_blank P [] _ eq_refl) in Hrun.
  destruct (success_fields P (JStr []) (JStr [])
              (reported transcriptionResult "language")
              (reported transcriptionResult "duration"))
    as (Hs & _ & Ho & Hb & _); try discriminate.
  eexists. split; [exact Hrun|]. repeat split; assumption.
Qed.

Lemma missing_text_becomes_empty_witness :
  exists r,
    run textless_platform (multipart_event (lit "AAAA"))
    = (Ok r, [whisper_request (lit "sk-test") small_audio])
    /\ field r "original" = Some (JStr [])
    /\ field r "bengali" = Some (JStr []).
Proof.
  assert (Hts : transcription_succeeds textless_platform (multipart_event (lit "AAAA"))
                  (lit "sk-test") small_audio (mkHttp 200 (lit "{}")) (JObj []))
    by transcribed_by_evaluation.
  destruct (missing_text_becomes_empty _ _ _ _ _ _ JUndefined Hts eq_refl eq_refl)
    as (r & Hrun & _ & Ho & Hb).
  exists r. split; [exact Hrun|]. split; assumption.
Defined.

(** X12: when the transcription answer's [text] is truthy but not a string
    and prints without Bengali characters (a number, [true], an object),
    the call of [trim] throws and the invocation is answered 500 by the
    top-level handler, after the transcription call and without a
    translation call. *)
Theorem non_string_text_is_an_internal_error (P : Platform) (event : Event)
    (key : jstring) (audio : Buffer) (openaiResponse : HttpResponse)
    (transcriptionResult txt : JsValue) :
  transcription_succeeds P event key audio openaiResponse transcriptionResult ->
  get_prop transcriptionResult "text" = Ok txt ->
  truthy txt = true ->
  (forall s, txt <> JStr s) ->
  regex_bengali_test txt = false ->
  exists r m,
    run P event = (Ok r, [whisper_request key audio])
    /\ statusCode r = 500
    /\ field r "error" = Some (JStr (lit "Internal server error during transcription"))
    /\ field r "message" = Some (JStr m)
    /\ field r "original" = None.
Proof.
  intros Hts Htxt Htruthy Hns Hre.
  pose proof (run_transcribed_any _ _ _ _ _ _ _ Hts Htxt) as Hrun.
  unfold js_or in Hrun. rewrite Htruthy in Hrun.
  rewrite translate_step_eq, Hre in Hrun.
  destruct (printable txt).
  2:{ eexists _, _. split; [exact Hrun|]. repeat split; reflexivity. }
  destruct txt as [| | | | s | | |]; try discriminate Htruthy;
    try (eexists _, _; split; [exact Hrun|]; repeat split; reflexivity).
  exfalso. now apply (Hns s).
Qed.

Lemma non_string_text_is_an_internal_error_witness :
  exists r,
    run number_platform (multipart_event (lit "AAAA"))
    = (Ok r, [whisper_request (lit "sk-test") small_audio])
    /\ statusCode r = 500.
Proof.
  assert (Hts : transcription_succeeds number_platform (multipart_event (lit "AAAA"))
                  (lit "sk-test") small_audio (mkHttp 200 number_json)
                  (JObj [ (lit "text", JNum 42) ]))
    by transcribed_by_evaluation.
  destruct (non_string_text_is_an_internal_error _ _ _ _ _ _ (JNum 42) Hts
              eq_refl eq_refl ltac:(discriminate) eq_refl)
    as (r & m & Hrun & Hs & _).
  exists r. split; assumption.
Defined.

(** X13: when the transcription service answers with a success status but
    a body that is not JSON, or the JSON value [null], the invocation is
    answered 500 by the top-level handler (with the parser's message in the
    first case), after the transcription call alone. *)
Theorem unusable_transcription_body_is_an_internal_error (P : Platform) (event : Event)
    (key : jstring) (audio : Buffer) (openaiResponse : HttpResponse) :
  validated P event key audio ->
  fetch P (whisper_request key audio) = Ok openaiResponse ->
  ok openaiResponse = true ->
  (forall e,
     json P openaiResponse = Throw e ->
     exists r,
       run P event = (Ok r, [whisper_request key audio])
       /\ statusCode r = 500
       /\ field r "message" = Some (JStr (exn_message e)))
  /\ (json P openaiResponse = Ok JNull ->
      exists r m,
        run P event = (Ok r, [whisper_request key audio])
        /\ statusCode r = 500
        /\ field r "message" = Some (JStr m)).
Proof.
  intros Hv Hf Hok.
  assert (Hrun : run P event
                 = match finish P openaiResponse [whisper_request key audio] with
                   | (Ok r, tr) => (Ok r, tr)
                   | (Throw e, tr) => (Ok (internal_error P e), tr)
                   end).
  { rewrite (run_post _ _ (v_method _ _ _ _ Hv)). unfold try_catch.
    rewrite (pipeline_validated _ _ _ _ Hv), Hf, Hok. reflexivity. }
  split.
  - intros e Hj. exists (internal_error P e).
    rewrite Hrun. unfold finish, bind, lift. rewrite Hj. repeat split; reflexivity.
  - intros Hj. rewrite Hrun. unfold finish, bind, lift. rewrite Hj.
    eexists _, _. repeat split; reflexivity.
Qed.

Lemma unusable_transcription_body_is_an_internal_error_witness :
  (exists r,
     run html_platform (multipart_event (lit "AAAA"))
     = (Ok r, [whisper_request (lit "sk-test") small_audio])
     /\ statusCode r = 500)
  /\ (exists r,
        run null_platform (multipart_event (lit "AAAA"))
        = (Ok r, [whisper_request (lit "sk-test") small_audio])
        /\ statusCode r = 500).
Proof.
  split.
  - assert (Hv : validated html_platform (multipart_event (lit "AAAA"))
                   (lit "sk-test") small_audio)
      by (constructor; try reflexivity; discriminate).
    destruct (unusable_transcription_body_is_an_internal_error html_platform _ _ _
                (mkHttp 200 (lit "<html>")) Hv eq_refl eq_refl) as [H _].
    destruct (H SyntaxError eq_refl) as (r & Hrun & Hs & _).
    exists r. split; assumption.
  - assert (Hv : validated null_platform (multipart_event (lit "AAAA"))
                   (lit "sk-test") small_audio)
      by (constructor; try reflexivity; discriminate).
    destruct (unusable_transcription_body_is_an_internal_error null_platform _ _ _
                (mkHttp 200 (lit "null")) Hv eq_refl eq_refl) as [_ H].
    destruct (H eq_refl) as (r & m & Hrun & Hs & _).
    exists r. split; assumption.
Defined.

(** X14: when the call to the transcription service is rejected (the
    service cannot be reached), the invocation is answered 500 with the
    rejection's message in [message]; the call is not retried and the
    translation service is not called. *)
Theorem rejected_transcription_is_an_internal_error (P : Platform) (event : Event)
    (key : jstring) (audio : Buffer) (e : Exn) :
  validated P event key audio ->
  fetch P (whisper_request key audio) = Throw e ->
  exists r,
    run P event = (Ok r, [whisper_request key audio])
    /\ statusCode r = 500
    /\ field r "error" = Some (JStr (lit "Internal server error during transcription"))
    /\ field r "message" = Some (JStr (exn_message e)).
Proof.
  intros Hv Hf. exists (internal_error P e).
  rewrite (run_post _ _ (v_method _ _ _ _ Hv)). unfold try_catch.
  rewrite (pipeline_validated _ _ _ _ Hv), Hf. repeat split; reflexivity.
Qed.

Lemma rejected_transcription_is_an_internal_error_witness :
  exists r,
    run offline_platform (multipart_event (lit "AAAA"))
    = (Ok r, [whisper_request (lit "sk-test") small_audio])
    /\ field r "message" = Some (JStr (lit "network timeout")).
Proof.
  assert (Hv : validated offline_platform (multipart_event (lit "AAAA"))
                 (lit "sk-test") small_audio)
    by (constructor; try reflexivity; discriminate).
  destruct (rejected_transcription_is_an_internal_error offline_platform _ _ _
              FetchError Hv eq_refl) as (r & Hrun & _ & _ & Hm).
  exists r. split; assumption.
Defined.

(** X15: [translateToBengali] never throws: whatever the translation
    service does, it returns [null] or a truthy value; it makes one call,
    or none when the text cannot be URL-encoded. *)
Theorem translateToBengali_never_throws (P : Platform) (txt : jstring) (t : Trace) :
  exists v,
    (v = JNull \/ truthy v = true)
    /\ (translateToBengali P txt t = (Ok v, t)
        /\ (exists e, encodeURIComponent P txt = Throw e)
        \/ exists q,
             encodeURIComponent P txt = Ok q
             /\ translateToBengali P txt t = (Ok v, t ++ [translate_request q])).
Proof.
  rewrite translateToBengali_spec.
  destruct (encodeURIComponent P txt) as [q|e].
  2:{ exists JNull. split; [now left|]. left. split; [reflexivity | eauto]. }
  destruct (fetch P (translate_request q)) as [response|e].
  2:{ exists JNull. split; [now left|]. right. exists q. auto. }
  destruct (ok response).
  2:{ exists JNull. split; [now left|]. right. exists q. auto. }
  destruct (json P response) as [data|e].
  2:{ exists JNull. split; [now left|]. right. exists q. auto. }
  destruct (truthy (first_segment data)) eqn:E.
  - exists (first_segment data). split; [now right|]. right. exists q. auto.
  - exists JNull. split; [now left|]. right. exists q. auto.
Qed.

(* ------------------------------------------------------------------ *)
(** ** More on the size check and the calls *)

Lemma finish_calls P openaiResponse t x t' :
  finish P openaiResponse t = (x, t') ->
  t' = t \/ exists q, t' = t ++ [translate_request q].
Proof.
  unfold finish, bind, lift, ret.
  destruct (json P openaiResponse) as [res|e].
  2:{ intros H; injection H as _ <-. now left. }
  destruct (get_prop res "text") as [txt|e].
  2:{ intros H; injection H as _ <-. now left. }
  destruct (translate_step_cases P (js_or txt (JStr [])) t)
    as [[e ->] | (b & _ & [-> | (s & q & _ & _ & ->)])].
  - intros H; injection H as _ <-. now left.
  - destruct (get_prop res "language"), (get_prop res "duration");
      intros H; injection H as _ <-; now left.
  - destruct (get_prop res "language"), (get_prop res "duration");
      intros H; injection H as _ <-; right; eauto.
Qed.

(** X16: every request that passes validation (a POST with the credential,
    not a probe, multipart, decoding to at most 25 MiB, an empty upload
    included) leads to the transcription call, made first and once, with
    the decoded audio and the configured key; at most one translation call
    follows. *)
Theorem validated_request_is_transcribed (P : Platform) (event : Event)
    (key : jstring) (audio : Buffer) :
  validated P event key audio ->
  exists r tr,
    run P event = (Ok r, whisper_request key audio :: tr)
    /\ (tr = [] \/ exists q, tr = [translate_request q])
    /\ req_authorization (whisper_request key audio) = Some (lit "Bearer " ++ key)
    /\ In (FormFile (lit "file") audio (lit "audio.webm") (lit "audio/webm"))
          (req_form (whisper_request key audio)).
Proof.
  intros Hv.
  assert (Hreq : req_authorization (whisper_request key audio) = Some (lit "Bearer " ++ key)
                 /\ In (FormFile (lit "file") audio (lit "audio.webm") (lit "audio/webm"))
                       (req_form (whisper_request key audio))).
  { split; [reflexivity | now left]. }
  rewrite (run_post _ _ (v_method _ _ _ _ Hv)). unfold try_catch.
  rewrite (pipeline_validated _ _ _ _ Hv).
  destruct (fetch P (whisper_request key audio)) as [resp|e].
  2:{ eexists _, []. split; [reflexivity|]. split; [now left | exact Hreq]. }
  destruct (ok resp).
  2:{ eexists _, []. split; [reflexivity|]. split; [now left | exact Hreq]. }
  destruct (finish P resp [whisper_request key audio]) as [[r|e] t'] eqn:E;
    apply finish_calls in E; destruct E as [-> | [q ->]].
  - eexists _, []. split; [reflexivity|]. split; [now left | exact Hreq].
  - eexists _, [translate_request q]. split; [reflexivity|]. split; [eauto | exact Hreq].
  - eexists _, []. split; [reflexivity|]. split; [now left | exact Hreq].
  - eexists _, [translate_request q]. split; [reflexivity|]. split; [eauto | exact Hreq].
Qed.

Lemma validated_request_is_transcribed_witness :
  exists r tr,
    run translating_platform (multipart_event (lit "AAAA"))
    = (Ok r, whisper_request (lit "sk-test") small_audio :: tr)
    /\ (tr = [] \/ exists q, tr = [translate_request q]).
Proof.
  assert (Hv : validated translating_platform (multipart_event (lit "AAAA"))
                 (lit "sk-test") small_audio)
    by (constructor; try reflexivity; discriminate).
  destruct (validated_request_is_transcribed _ _ _ _ Hv) as (r & tr & Hrun & Htr & _).
  exists r, tr. split; assumption.
Defined.

(** X17: the reported size is rounded, not truncated upwards: an upload
    over 25 MiB by less than half a MiB is rejected with [fileSize]
    ["25MB"], and no rejected upload reports less than 25. *)
Theorem slightly_oversized_audio_reports_25MB (P : Platform) (event : Event)
    (key : jstring) (audio : Buffer) :
  httpMethod event = lit "POST" ->
  env_OPENAI_API_KEY P = Some key ->
  key <> [] ->
  is_probe P event = false ->
  not_multipart (content_type event) = false ->
  decode_body P event = Ok audio ->
  (25 * 1024 * 1024 < buf_length audio)%N ->
  exists r m,
    run P event = (Ok r, [])
    /\ statusCode r = 400
    /\ field r "fileSize" = Some (JStr (Z_to_dec m ++ lit "MB"))
    /\ 25 <= m
    /\ ((buf_length audio < 25 * 1024 * 1024 + 512 * 1024)%N ->
        field r "fileSize" = Some (JStr (lit "25MB"))).
Proof.
  intros Hm Hk Hne Hp Hc Ha Hlen.
  exists (too_large audio), (Math_round (megabytes (buf_length audio))).
  split.
  { rewrite (run_after_probe _ _ _ Hm Hk Hne Hp), Hc, Ha.
    apply N.ltb_lt in Hlen. unfold MAX_BYTES. rewrite Hlen. reflexivity. }
  split; [reflexivity|]. split; [reflexivity|].
  rewrite Math_round_megabytes.
  split.
  - apply Z.div_le_lower_bound; lia.
  - intros Hup. unfold field, too_large. simpl body.
    rewrite Math_round_megabytes.
    replace ((Z.of_N (buf_length audio) + 512 * 1024) / (1024 * 1024)) with 25;
      [reflexivity|].
    apply Z.div_unique with (r := Z.of_N (buf_length audio) + 512 * 1024
                                            - 25 * (1024 * 1024)); lia.
Qed.

Lemma near_audio_length : buf_length near_audio = (25 * 1024 * 1024 + 1)%N.
Proof.
  unfold near_audio, decode_letters_A, near_body. cbn [buf_length].
  rewrite repeat_length, N2Nat.id. reflexivity.
Qed.

Lemma slightly_oversized_audio_reports_25MB_witness :
  exists r,
    run (big_platform (Some (lit "sk-test"))) (multipart_event near_body) = (Ok r, [])
    /\ statusCode r = 400
    /\ field r "fileSize" = Some (JStr (lit "25MB")).
Proof.
  destruct (slightly_oversized_audio_reports_25MB (big_platform (Some (lit "sk-test")))
              (multipart_event near_body) (lit "sk-test") near_audio
              eq_refl eq_refl ltac:(discriminate) eq_refl eq_refl eq_refl)
    as (r & m & Hrun & Hs & _ & _ & H25).
  { rewrite near_audio_length. reflexivity. }
  exists r. split; [exact Hrun|]. split; [exact Hs|].
  apply H25. rewrite near_audio_length. reflexivity.
Defined.

(** X18: the translation is taken on truthiness alone: whenever the guard
    [data && data[0] && data[0][0] && data[0][0][0]] of a 200 translation
    answer is truthy, its value becomes [bengali] as [JSON.stringify] writes
    it, string or not: for a body that is a JSON string, the string's first
    code unit; for a numeric first segment, the number; for a numeric
    segment that overflowed to an infinity, [null]. *)
Theorem truthy_first_segment_becomes_bengali (P : Platform) (event : Event)
    (key : jstring) (audio : Buffer) (openaiResponse : HttpResponse)
    (transcriptionResult : JsValue) (original q : jstring)
    (response : HttpResponse) (data : JsValue) :
  transcription_succeeds P event key audio openaiResponse transcriptionResult ->
  get_prop transcriptionResult "text" = Ok (JStr original) ->
  translation_attempted original ->
  encodeURIComponent P original = Ok q ->
  fetch P (translate_request q) = Ok response ->
  ok response = true ->
  json P response = Ok data ->
  truthy (first_segment data) = true ->
  exists r,
    run P event = (Ok r, [whisper_request key audio; translate_request q])
    /\ statusCode r = 200
    /\ field r "original" = Some (JStr original)
    /\ field r "bengali" = Some (jsonify (first_segment data))
    /\ (forall c s, data = JStr (c :: s) -> field r "bengali" = Some (JStr [c]))
    /\ (forall x r1 r2 r3,
          data = JArr (JArr (JArr (JNum x :: r1) :: r2) :: r3) ->
          field r "bengali" = Some (JNum x))
    /\ (forall negative r1 r2 r3,
          data = JArr (JArr (JArr (JInfinity negative :: r1) :: r2) :: r3) ->
          field r "bengali" = Some JNull).
Proof.
  intros Hts Htxt Hatt He Hf Hok Hj Hseg.
  assert (Hne : original <> []) by (intros ->; destruct Hatt as [_ H]; now apply H).
  pose proof (run_transcribed _ _ _ _ _ _ _ Hts Htxt Hne) as Hrun.
  rewrite (translate_step_attempted _ _ _ Hatt) in Hrun.
  rewrite translateToBengali_spec, He, Hf, Hok, Hj in Hrun.
  rewrite Hseg in Hrun. cbv beta iota in Hrun. rewrite Hseg in Hrun. simpl app in Hrun.
  destruct (success_fields P (JStr original) (first_segment data)
              (reported transcriptionResult "language")
              (reported transcriptionResult "duration"))
    as (Hs & _ & Ho & Hb & _); [discriminate | now apply truthy_defined |].
  eexists. split; [exact Hrun|].
  split; [exact Hs|]. split; [exact Ho|]. split; [exact Hb|].
  split; [|split].
  - intros c s ->. exact Hb.
  - intros x r1 r2 r3 ->. exact Hb.
  - intros negative r1 r2 r3 ->. exact Hb.
Qed.

Lemma truthy_first_segment_becomes_bengali_witness :
  exists r,
    run string_body_platform (multipart_event (lit "AAAA"))
    = (Ok r, [whisper_request (lit "sk-test") small_audio; hello_request])
    /\ field r "bengali" = Some (JStr (lit "o")).
Proof.
  assert (Hts : transcription_succeeds string_body_platform (multipart_event (lit "AAAA"))
                  (lit "sk-test") small_audio (mkHttp 200 hello_json) hello_result)
    by transcribed_by_evaluation.
  destruct (truthy_first_segment_becomes_bengali _ _ _ _ _ _ (lit "Hello") (lit "Hello")
              (mkHttp 200 (quoted "oops")) (JStr (lit "oops"))
              Hts eq_refl hello_attempted eq_refl eq_refl eq_refl eq_refl eq_refl)
    as (r & Hrun & _ & _ & _ & Hc & _).
  exists r. split; [exact Hrun|]. exact (Hc _ _ eq_refl).
Defined.
